(** * tele-bot.py: the meal cost bot, embedded and verified

    A shallow embedding of [MealCostBot] (tele-bot.py): the bot object and
    its handlers as computations in a state-and-exception monad, the
    conversation handler built by [setup_bot] as a step function, and the
    Python built-ins the handlers call ([str.strip], [str.lower], [dict],
    [float], [round], float formatting) as executable functions.

    Text is modelled as [string] (8-bit characters; case folding and
    whitespace are those of the ASCII range).  A Python float is a
    binary64 value of [SpecFloat.spec_float]. *)

From Stdlib Require Import List String Ascii Bool Arith ZArith Lia.
From Stdlib Require Import DecimalString.
From Stdlib Require Import Floats.SpecFloat.
Import ListNotations.

Local Open Scope string_scope.
Local Open Scope Z_scope.

(** ** Python strings *)

Module PyStr.

Definition code (c : ascii) : Z := Z.of_nat (nat_of_ascii c).

Definition in_range (lo hi : Z) (c : ascii) : bool :=
  (lo <=? code c) && (code c <=? hi).

(** [str.isspace] on one character: TAB..CR, FS..US and the space. *)
Definition is_space (c : ascii) : bool :=
  in_range 9 13 c || in_range 28 32 c.

Definition is_digit (c : ascii) : bool := in_range 48 57 c.

Definition is_upper (c : ascii) : bool := in_range 65 90 c.

Definition lower_char (c : ascii) : ascii :=
  if is_upper c then ascii_of_nat (nat_of_ascii c + 32) else c.

(** [s.lower()] *)
Fixpoint lower (s : string) : string :=
  match s with
  | EmptyString => EmptyString
  | String c s' => String (lower_char c) (lower s')
  end.

Fixpoint lstrip (s : string) : string :=
  match s with
  | EmptyString => EmptyString
  | String c s' => if is_space c then lstrip s' else s
  end.

Fixpoint rstrip (s : string) : string :=
  match s with
  | EmptyString => EmptyString
  | String c s' =>
      match rstrip s' with
      | EmptyString => if is_space c then EmptyString else String c EmptyString
      | r => String c r
      end
  end.

(** [s.strip()] *)
Definition strip (s : string) : string := rstrip (lstrip s).

(** [sep.join(l)] *)
Definition join (sep : string) (l : list string) : string :=
  String.concat sep l.

(** [str(n)] for a non-negative integer. *)
Definition of_Z (n : Z) : string :=
  NilZero.string_of_uint (N.to_uint (Z.to_N n)).

(** ["%02d"]-style zero padding to a minimal width. *)
Fixpoint zfill_aux (k : nat) (s : string) : string :=
  match k with
  | O => s
  | S k' => zfill_aux k' (String "0" s)
  end.

Definition zfill (width : nat) (s : string) : string :=
  zfill_aux (width - String.length s) s.

End PyStr.

(** ** Python dicts with string keys

    A [dict] keeps its keys in insertion order, so it is an association
    list; the operations below keep the keys pairwise distinct. *)

Module PyDict.

Section Ops.
Context {V : Type}.

Definition dict := list (string * V).

Definition keys (d : dict) : list string := map fst d.

Definition len (d : dict) : nat := List.length d.

(** [k in d] *)
Definition contains (k : string) (d : dict) : bool :=
  existsb (String.eqb k) (keys d).

(** [d[k]], [None] standing for [KeyError]. *)
Fixpoint getitem (k : string) (d : dict) : option V :=
  match d with
  | [] => None
  | (k', v) :: d' => if String.eqb k k' then Some v else getitem k d'
  end.

Fixpoint replace (k : string) (v : V) (d : dict) : dict :=
  match d with
  | [] => []
  | (k', v') :: d' =>
      if String.eqb k k' then (k', v) :: d' else (k', v') :: replace k v d'
  end.

(** [d[k] = v]: an existing key keeps its position, a new one goes last. *)
Definition setitem (k : string) (v : V) (d : dict) : dict :=
  if contains k d then replace k v d else (d ++ [(k, v)])%list.

(** [del d[k]], [None] standing for [KeyError]. *)
Fixpoint delitem (k : string) (d : dict) : option dict :=
  match d with
  | [] => None
  | (k', v') :: d' =>
      if String.eqb k k' then Some d'
      else option_map (cons (k', v')) (delitem k d')
  end.

(** [d.clear()] *)
Definition clear (d : dict) : dict := [].

(** The keys of a dict are pairwise distinct. *)
Definition wf (d : dict) : Prop := NoDup (keys d).

End Ops.

Arguments dict : clear implicits.

End PyDict.

(** ** Python floats *)

Module PyFloat.

Definition float := spec_float.

Definition prec : Z := 53.
Definition emax : Z := 1024.

Definition is_finite (x : float) : bool :=
  match x with
  | S754_zero _ | S754_finite _ _ _ => true
  | S754_infinity _ | S754_nan => false
  end.

(** [x >= 0] as Python compares floats (false on nan). *)
Definition is_nonneg (x : float) : bool :=
  SFleb (S754_zero false) x.

(** [float(n)] for an integer. *)
Definition of_Z (n : Z) : float := binary_normalize prec emax n 0 false.

(** The binary64 nearest to [(-1)^s * m * 10^e] (ties to even), which is
    what the string-to-double conversion returns. *)
Definition of_decimal (s : bool) (m : Z) (e : Z) : float :=
  match m with
  | Zpos p =>
      if 0 <=? e
      then binary_normalize prec emax (if s then Z.neg p * 10 ^ e else Z.pos p * 10 ^ e) 0 s
      else SFdiv prec emax (S754_finite s p 0)
                           (S754_finite false (Z.to_pos (10 ^ (- e))) 0)
  | _ => S754_zero s
  end.

Definition digit_val (c : ascii) : Z := PyStr.code c - 48.

(** The longest prefix of decimal digits of [s], read on top of [acc]:
    the value, the number of digits read and the rest of [s]. *)
Fixpoint digits (s : string) (acc : Z) (n : Z) : Z * Z * string :=
  match s with
  | String c s' =>
      if PyStr.is_digit c then digits s' (10 * acc + digit_val c) (n + 1)
      else (acc, n, s)
  | EmptyString => (acc, n, s)
  end.

Definition sign_of (s : string) : bool * string :=
  match s with
  | String "-" s' => (true, s')
  | String "+" s' => (false, s')
  | _ => (false, s)
  end.

(** Underscores are dropped when each stands between two digits, and
    make the literal invalid otherwise. *)
Fixpoint drop_underscores (prev : ascii) (s : string) : option string :=
  match s with
  | EmptyString => if Ascii.eqb prev "_" then None else Some EmptyString
  | String c s' =>
      if Ascii.eqb c "_" then
        if PyStr.is_digit prev then drop_underscores c s' else None
      else if Ascii.eqb prev "_" && negb (PyStr.is_digit c) then None
      else option_map (String c) (drop_underscores c s')
  end.

(** Whitespace of the C locale, skipped around the literal. *)
Definition is_c_space (c : ascii) : bool :=
  PyStr.in_range 9 13 c || PyStr.in_range 32 32 c.

Fixpoint c_lstrip (s : string) : string :=
  match s with
  | EmptyString => EmptyString
  | String c s' => if is_c_space c then c_lstrip s' else s
  end.

Fixpoint c_rstrip (s : string) : string :=
  match s with
  | EmptyString => EmptyString
  | String c s' =>
      match c_rstrip s' with
      | EmptyString => if is_c_space c then EmptyString else String c EmptyString
      | r => String c r
      end
  end.

(** ["inf"], ["infinity"] and ["nan"], signed, in any letter case. *)
Definition parse_inf_nan (s : string) : option float :=
  let '(sg, r) := sign_of s in
  let l := PyStr.lower r in
  if String.eqb l "inf" || String.eqb l "infinity" then Some (S754_infinity sg)
  else if String.eqb l "nan" then Some S754_nan
  else None.

(** The exponent part: nothing, or [e]/[E], a sign and at least one digit. *)
Definition parse_exponent (s : string) : option Z :=
  match s with
  | EmptyString => Some 0
  | String c r =>
      if Ascii.eqb c "e" || Ascii.eqb c "E" then
        let '(sg, r1) := sign_of r in
        let '(v, n, r2) := digits r1 0 0 in
        if (0 <? n) && String.eqb r2 EmptyString then Some (if sg then - v else v)
        else None
      else None
  end.

(** A decimal literal: sign, digits with an optional point (at least one
    digit in all), optional exponent, and nothing after it. *)
Definition parse_decimal (s : string) : option float :=
  let '(sg, r) := sign_of s in
  let '(ip, ni, r1) := digits r 0 0 in
  let '(m, nf, r2) :=
    match r1 with
    | String "." r' => digits r' ip 0
    | _ => (ip, 0, r1)
    end in
  if ni + nf =? 0 then None
  else match parse_exponent r2 with
       | Some e => Some (of_decimal sg m (e - nf))
       | None => None
       end.

(** [float(text)] on a string; [None] stands for [ValueError]. *)
Definition of_string (text : string) : option float :=
  match drop_underscores zero text with
  | None => None
  | Some t =>
      let t := c_rstrip (c_lstrip t) in
      match parse_decimal t with
      | Some x => Some x
      | None => parse_inf_nan t
      end
  end.

(** [a / b]; [None] stands for [ZeroDivisionError]. *)
Definition truediv (a b : float) : option float :=
  match b with
  | S754_zero _ => None
  | _ => Some (SFdiv prec emax a b)
  end.

(** [m * 2^e * 100] rounded to an integer, ties to even: the digits that
    the correctly rounded two-place decimal expansion keeps. *)
Definition hundredths (m : positive) (e : Z) : Z :=
  if 0 <=? e then Z.pos m * 2 ^ e * 100
  else
    let num := Z.pos m * 100 in
    let den := 2 ^ (- e) in
    let q := num / den in
    match 2 * (num mod den) ?= den with
    | Lt => q
    | Gt => q + 1
    | Eq => if Z.even q then q else q + 1
    end.

(** [round(x, 2)]: nan and the infinities round to themselves; a finite
    value goes through its two-place decimal expansion and back. *)
Definition round2 (x : float) : float :=
  match x with
  | S754_finite s m e => of_decimal s (hundredths m e) (-2)
  | _ => x
  end.

Definition sign_str (s : bool) : string := if s then "-" else EmptyString.

(** [f"{x:.2f}"] *)
Definition format_2f (x : float) : string :=
  match x with
  | S754_nan => "nan"
  | S754_infinity s => sign_str s ++ "inf"
  | S754_zero s => sign_str s ++ "0.00"
  | S754_finite s m e =>
      let q := hundredths m e in
      sign_str s ++ PyStr.of_Z (q / 100) ++ "."
        ++ PyStr.zfill 2 (PyStr.of_Z (q mod 100))
  end.

Definition is_zero (x : float) : bool :=
  match x with
  | S754_zero _ => true
  | _ => false
  end.

End PyFloat.

(** ** Values, exceptions and the world around the bot *)

(** A Python number: the [0] that [add_participant] stores is an [int],
    a share is a [float]. *)
Inductive num : Type :=
| Int (n : Z)
| Float (x : PyFloat.float).

(** The exceptions raised in the program (all derive from [Exception]). *)
Inductive exn : Type :=
| ValueError (msg : string)
| ZeroDivisionError (msg : string)
| KeyError (key : string)
| WorksheetNotFound (title : string)
| APIError (msg : string).

(** The [except] clauses of the program. *)
Inductive except_clause : Type :=
| except_ValueError
| except_WorksheetNotFound
| except_Exception.

Definition catches (c : except_clause) (e : exn) : bool :=
  match c, e with
  | except_Exception, _ => true
  | except_ValueError, ValueError _ => true
  | except_WorksheetNotFound, WorksheetNotFound _ => true
  | _, _ => false
  end.

Record datetime : Type := { year : Z; month : Z; day : Z }.

(** [d.strftime("%Y-%m-%d")] *)
Definition strftime_Ymd (d : datetime) : string :=
  PyStr.zfill 4 (PyStr.of_Z (year d)) ++ "-"
  ++ PyStr.zfill 2 (PyStr.of_Z (month d)) ++ "-"
  ++ PyStr.zfill 2 (PyStr.of_Z (day d)).

Inductive cell : Type :=
| CStr (s : string)
| CNum (x : PyFloat.float).

Definition row := list cell.

(** The spreadsheet service behind [sheets_client]: the worksheets of the
    spreadsheet by title, and for each coming API call whether it fails
    (network, auth, quota, ...) and with what. *)
Record Sheets : Type := {
  worksheets : PyDict.dict (list row);
  faults : list (option exn)
}.

Inductive markup : Type :=
| ReplyKeyboardMarkup (keyboard : list (list string))
| ReplyKeyboardRemove.

(** A [reply_text] call. *)
Record reply : Type := { text : string; reply_markup : option markup }.

(** What [logger] receives; the application logs a handler's uncaught
    exception. *)
Inductive log_record : Type :=
| Info_synced (total_bill : PyFloat.float)
| Error_syncing (e : exn)
| Error_unhandled (e : exn).

(** ** The bot object *)

Record MealCostBot : Type := {
  token : string;
  spreadsheet_id : string;
  current_meal_participants : PyDict.dict num;
  current_meal_total_bill : num;
  current_meal_date : datetime;
  current_meal_purchaser : PyDict.dict string
}.

Definition set_participants (f : PyDict.dict num -> PyDict.dict num)
    (b : MealCostBot) : MealCostBot :=
  {| token := token b;
     spreadsheet_id := spreadsheet_id b;
     current_meal_participants := f (current_meal_participants b);
     current_meal_total_bill := current_meal_total_bill b;
     current_meal_date := current_meal_date b;
     current_meal_purchaser := current_meal_purchaser b |}.

Definition set_total_bill (v : num) (b : MealCostBot) : MealCostBot :=
  {| token := token b;
     spreadsheet_id := spreadsheet_id b;
     current_meal_participants := current_meal_participants b;
     current_meal_total_bill := v;
     current_meal_date := current_meal_date b;
     current_meal_purchaser := current_meal_purchaser b |}.

Definition set_date (d : datetime) (b : MealCostBot) : MealCostBot :=
  {| token := token b;
     spreadsheet_id := spreadsheet_id b;
     current_meal_participants := current_meal_participants b;
     current_meal_total_bill := current_meal_total_bill b;
     current_meal_date := d;
     current_meal_purchaser := current_meal_purchaser b |}.

Definition set_purchaser (f : PyDict.dict string -> PyDict.dict string)
    (b : MealCostBot) : MealCostBot :=
  {| token := token b;
     spreadsheet_id := spreadsheet_id b;
     current_meal_participants := current_meal_participants b;
     current_meal_total_bill := current_meal_total_bill b;
     current_meal_date := current_meal_date b;
     current_meal_purchaser := f (current_meal_purchaser b) |}.

(** Everything a handler can read or change: the bot object, the
    spreadsheet service, the clock, the messages sent and the log. *)
Record Env : Type := {
  self : MealCostBot;
  service : Sheets;
  clock : datetime;
  sent : list reply;
  log : list log_record
}.

Definition with_self (f : MealCostBot -> MealCostBot) (w : Env) : Env :=
  {| self := f (self w); service := service w; clock := clock w;
     sent := sent w; log := log w |}.

Definition with_service (f : Sheets -> Sheets) (w : Env) : Env :=
  {| self := self w; service := f (service w); clock := clock w;
     sent := sent w; log := log w |}.

Definition with_sent (f : list reply -> list reply) (w : Env) : Env :=
  {| self := self w; service := service w; clock := clock w;
     sent := f (sent w); log := log w |}.

Definition with_log (f : list log_record -> list log_record) (w : Env) : Env :=
  {| self := self w; service := service w; clock := clock w;
     sent := sent w; log := f (log w) |}.

(** ** The monad of handlers

    A computation returns or raises, and in both cases leaves the
    environment as changed so far: Python undoes nothing when an
    exception unwinds. *)

Inductive outcome (A : Type) : Type :=
| Return (a : A)
| Raise (e : exn).

Arguments Return {A} a.
Arguments Raise {A} e.

Definition M (A : Type) : Type := Env -> outcome A * Env.

Definition ret {A} (a : A) : M A := fun w => (Return a, w).

Definition bind {A B} (m : M A) (k : A -> M B) : M B :=
  fun w =>
    match m w with
    | (Return a, w') => k a w'
    | (Raise e, w') => (Raise e, w')
    end.

Definition raise {A} (e : exn) : M A := fun w => (Raise e, w).

(** [try: body  except clause as e: handler e] *)
Definition try_except {A} (body : M A) (c : except_clause)
    (handler : exn -> M A) : M A :=
  fun w =>
    match body w with
    | (Return a, w') => (Return a, w')
    | (Raise e, w') => if catches c e then handler e w' else (Raise e, w')
    end.

Declare Scope monad_scope.
Delimit Scope monad_scope with M.
Notation "x <- m ;; k" := (bind m (fun x => k))
  (at level 61, m at next level, right associativity) : monad_scope.
Notation "m ;; k" := (bind m (fun _ => k))
  (at level 61, right associativity) : monad_scope.
Local Open Scope monad_scope.

Definition get_self : M MealCostBot := fun w => (Return (self w), w).

Definition modify_self (f : MealCostBot -> MealCostBot) : M unit :=
  fun w => (Return tt, with_self f w).

(** [for x in l: body x] *)
Fixpoint for_each {A} (l : list A) (body : A -> M unit) : M unit :=
  match l with
  | [] => ret tt
  | x :: l' => body x ;; for_each l' body
  end.

(** [await update.message.reply_text(text, reply_markup=...)] *)
Definition reply_text (t : string) (mk : option markup) : M unit :=
  fun w => (Return tt, with_sent (fun l => (l ++ [{| text := t; reply_markup := mk |}])%list) w).

Definition logger (r : log_record) : M unit :=
  fun w => (Return tt, with_log (fun l => (l ++ [r])%list) w).

(** [datetime.now()] *)
Definition datetime_now : M datetime := fun w => (Return (clock w), w).

Definition of_option {A} (o : option A) (e : exn) : M A :=
  match o with
  | Some a => ret a
  | None => raise e
  end.

(** ** The spreadsheet client (gspread) *)

Definition set_faults (fs : list (option exn)) (s : Sheets) : Sheets :=
  {| worksheets := worksheets s; faults := fs |}.

Definition set_worksheets (f : PyDict.dict (list row) -> PyDict.dict (list row))
    (s : Sheets) : Sheets :=
  {| worksheets := f (worksheets s); faults := faults s |}.

(** Every call to the service first meets the next scheduled fault. *)
Definition api_call : M unit :=
  fun w =>
    match faults (service w) with
    | Some e :: fs => (Raise e, with_service (set_faults fs) w)
    | None :: fs => (Return tt, with_service (set_faults fs) w)
    | [] => (Return tt, w)
    end.

Definition get_worksheets : M (PyDict.dict (list row)) :=
  fun w => (Return (worksheets (service w)), w).

(** [sheets_client.open_by_key(key)] *)
Definition open_by_key (key : string) : M unit := api_call.

(** [spreadsheet.worksheet(title)]; a worksheet is named by its title. *)
Definition worksheet (title : string) : M string :=
  api_call ;;
  ws <- get_worksheets ;;
  if PyDict.contains title ws then ret title
  else raise (WorksheetNotFound title).

(** [spreadsheet.add_worksheet(title=..., rows=..., cols=...)] *)
Definition add_worksheet (title : string) (rows cols : Z) : M string :=
  api_call ;;
  ws <- get_worksheets ;;
  if PyDict.contains title ws then raise (APIError "worksheet already exists")
  else (fun w => (Return title,
                  with_service (set_worksheets (PyDict.setitem title [])) w)).

(** [worksheet.append_row(values)] *)
Definition append_row (ws : string) (values : row) : M unit :=
  api_call ;;
  sheets <- get_worksheets ;;
  match PyDict.getitem ws sheets with
  | Some rows =>
      fun w => (Return tt,
                with_service
                  (set_worksheets (PyDict.setitem ws (rows ++ [values])%list)) w)
  | None => raise (APIError "worksheet not found")
  end.

(** ** MealCostBot *)

(** Conversation states; [END] is [ConversationHandler.END]. *)
Inductive state : Type :=
| WAITING_FOR_PARTICIPANTS
| WAITING_FOR_BILL
| REMOVING_PARTICIPANT
| WAITING_FOR_PURCHASER_INFO
| END.

Definition nl : string := String (ascii_of_nat 10) EmptyString.

(** [MealCostBot.__init__]: the token, the spreadsheet and the meal tracking
    variables; [now] is what [datetime.now()] returns. *)
Definition __init__ (telegram_token credentials_path spreadsheet : string)
    (now : datetime) : MealCostBot :=
  {| token := telegram_token;
     spreadsheet_id := spreadsheet;
     current_meal_participants := [];
     current_meal_total_bill := Int 0;
     current_meal_date := now;
     current_meal_purchaser :=
       [("name", EmptyString); ("contact", EmptyString);
        ("additional_info", EmptyString)] |}.

Definition start (update : string) : M state :=
  reply_text
    ("Welcome to Meal Cost Distribution Bot! "
     ++ "Use /start_meal to begin tracking a new meal's participants.") None ;;
  ret END.

Definition start_meal (update : string) : M state :=
  modify_self (set_participants PyDict.clear) ;;
  modify_self (set_total_bill (Int 0)) ;;
  now <- datetime_now ;;
  modify_self (set_date now) ;;
  modify_self (set_purchaser (fun _ => [("name", EmptyString)])) ;;
  reply_text
    ("Starting a new meal. First, let's collect the purchaser's information."
     ++ nl ++ nl ++ "Please enter the purchaser's name:") None ;;
  ret WAITING_FOR_PURCHASER_INFO.

Definition collect_purchaser_name (update : string) : M state :=
  modify_self (set_purchaser (PyDict.setitem "name" (PyStr.strip update))) ;;
  b <- get_self ;;
  name <- of_option (PyDict.getitem "name" (current_meal_purchaser b))
            (KeyError "name") ;;
  reply_text
    ("Thanks, " ++ name ++ ". "
     ++ "Purchaser information recorded. Now, please enter the names of all participants, "
     ++ "one name per message. Use /remove to remove a participant, "
     ++ "/list to see current participants, or /done when finished.") None ;;
  ret WAITING_FOR_PARTICIPANTS.

(** [name.lower() in [k.lower() for k in participants]] *)
Definition collides (name : string) (d : PyDict.dict num) : bool :=
  existsb (String.eqb (PyStr.lower name)) (map PyStr.lower (PyDict.keys d)).

Definition add_participant (update : string) : M state :=
  let participant_name := PyStr.strip update in
  b <- get_self ;;
  if collides participant_name (current_meal_participants b) then
    reply_text (participant_name ++ " is already in the participant list.") None ;;
    ret WAITING_FOR_PARTICIPANTS
  else
    modify_self (set_participants (PyDict.setitem participant_name (Int 0))) ;;
    reply_text ("Added " ++ participant_name ++ " to the meal.") None ;;
    ret WAITING_FOR_PARTICIPANTS.

(** [[l[i:i+3] for i in range(0, len(l), 3)]] *)
Fixpoint rows_of_3 (l : list string) : list (list string) :=
  match l with
  | [] => []
  | a :: b :: c :: l' => [a; b; c] :: rows_of_3 l'
  | _ => [l]
  end.

Definition remove_participant (update : string) : M state :=
  b <- get_self ;;
  match current_meal_participants b with
  | [] =>
      reply_text "No participants to remove. Add participants first." None ;;
      ret WAITING_FOR_PARTICIPANTS
  | _ =>
      let participant_list := PyDict.keys (current_meal_participants b) in
      let keyboard := rows_of_3 participant_list in
      reply_text "Select a participant to remove:"
        (Some (ReplyKeyboardMarkup keyboard)) ;;
      ret REMOVING_PARTICIPANT
  end.

Definition confirm_participant_removal (update : string) : M state :=
  let participant_to_remove := PyStr.strip update in
  b <- get_self ;;
  (if PyDict.contains participant_to_remove (current_meal_participants b) then
     d <- of_option
            (PyDict.delitem participant_to_remove (current_meal_participants b))
            (KeyError participant_to_remove) ;;
     modify_self (set_participants (fun _ => d)) ;;
     reply_text
       ("Removed " ++ participant_to_remove ++ " from the meal participants.")
       (Some ReplyKeyboardRemove)
   else
     reply_text ("Participant " ++ participant_to_remove ++ " not found.")
       (Some ReplyKeyboardRemove)) ;;
  ret WAITING_FOR_PARTICIPANTS.

Definition list_participants (update : string) : M state :=
  b <- get_self ;;
  match current_meal_participants b with
  | [] => reply_text "No participants added yet." None
  | _ =>
      let participant_list :=
        PyStr.join nl (PyDict.keys (current_meal_participants b)) in
      reply_text ("Current participants:" ++ nl ++ participant_list) None
  end ;;
  ret WAITING_FOR_PARTICIPANTS.

Definition finish_participants (update : string) : M state :=
  b <- get_self ;;
  match current_meal_participants b with
  | [] =>
      reply_text "No participants added. Please add participants first." None ;;
      ret WAITING_FOR_PARTICIPANTS
  | _ =>
      let participant_list :=
        PyStr.join ", " (PyDict.keys (current_meal_participants b)) in
      reply_text
        ("Participants for this meal: " ++ participant_list ++ nl
         ++ "Now, please send the total bill amount.") None ;;
      ret WAITING_FOR_BILL
  end.

Definition header_row : row :=
  [CStr "Date"; CStr "Purchaser Name"; CStr "Total Bill";
   CStr "Participants"; CStr "Individual Share"].

(** The row that a completed split appends. *)
Definition meal_row (b : MealCostBot) (purchaser_name : string)
    (total_bill individual_share : PyFloat.float) : row :=
  [CStr (strftime_Ymd (current_meal_date b));
   CStr purchaser_name;
   CNum total_bill;
   CStr (PyStr.join ", " (PyDict.keys (current_meal_participants b)));
   CNum individual_share].

(** The body of the [try] of [sync_to_google_sheets]. *)
Definition sync_body (total_bill individual_share : PyFloat.float) : M unit :=
  b <- get_self ;;
  open_by_key (spreadsheet_id b) ;;
  ws <- try_except (worksheet "Meal Costs") except_WorksheetNotFound
          (fun _ =>
             ws <- add_worksheet "Meal Costs" 1000 20 ;;
             append_row ws header_row ;;
             ret ws) ;;
  b <- get_self ;;
  name <- of_option (PyDict.getitem "name" (current_meal_purchaser b))
            (KeyError "name") ;;
  append_row ws (meal_row b name total_bill individual_share) ;;
  logger (Info_synced total_bill).

Definition sync_to_google_sheets (total_bill individual_share : PyFloat.float)
    : M unit :=
  try_except (sync_body total_bill individual_share) except_Exception
    (fun e => logger (Error_syncing e)).

(** [f"{share:.2f}"] on a Python number. *)
Definition format_share (v : num) : string :=
  match v with
  | Int n => PyFloat.format_2f (PyFloat.of_Z n)
  | Float x => PyFloat.format_2f x
  end.

(** The lines of the result message, one per participant. *)
Definition split_lines (d : PyDict.dict num) (message : string) : string :=
  fold_left
    (fun acc kv => acc ++ fst kv ++ ": $" ++ format_share (snd kv) ++ nl)
    d message.

(** The result message: the header, the lines and the total. *)
Definition bill_message (d : PyDict.dict num) (total_bill : PyFloat.float)
    : string :=
  split_lines d ("Bill Split:" ++ nl)
  ++ nl ++ "Total Bill: $" ++ PyFloat.format_2f total_bill.

(** The body of the [try] of [process_bill]. *)
Definition process_bill_body (update : string) : M state :=
  total_bill <- of_option (PyFloat.of_string (PyStr.strip update))
                  (ValueError "could not convert string to float") ;;
  b <- get_self ;;
  let num_participants := PyDict.len (current_meal_participants b) in
  quotient <- of_option
                (PyFloat.truediv total_bill
                   (PyFloat.of_Z (Z.of_nat num_participants)))
                (ZeroDivisionError "float division by zero") ;;
  let individual_share := PyFloat.round2 quotient in
  for_each (PyDict.keys (current_meal_participants b))
    (fun participant =>
       modify_self
         (set_participants
            (PyDict.setitem participant (Float individual_share)))) ;;
  b <- get_self ;;
  let result_message :=
    bill_message (current_meal_participants b) total_bill in
  sync_to_google_sheets total_bill individual_share ;;
  reply_text result_message None ;;
  ret END.

Definition process_bill (update : string) : M state :=
  try_except (process_bill_body update) except_ValueError
    (fun _ =>
       reply_text "Invalid bill amount. Please enter a valid number." None ;;
       ret WAITING_FOR_BILL).

Definition cancel (update : string) : M state :=
  reply_text "Meal tracking cancelled." (Some ReplyKeyboardRemove) ;;
  ret END.

(** ** The conversation handler of [setup_bot] *)

(** An incoming message: a command ([/name]) or any other text. *)
Inductive Update : Type :=
| Command (name : string)
| Text (message : string).

Definition message_text (u : Update) : string :=
  match u with
  | Command name => "/" ++ name
  | Text message => message
  end.

(** What a handler listens to: [CommandHandler(name, ...)] or
    [MessageHandler(filters.TEXT & ~filters.COMMAND, ...)]. *)
Inductive filter : Type :=
| CommandHandler (name : string)
| MessageHandler.

Definition matches (f : filter) (u : Update) : bool :=
  match f, u with
  | CommandHandler name, Command name' => String.eqb name name'
  | MessageHandler, Text _ => true
  | _, _ => false
  end.

Definition handler : Type := filter * (string -> M state).

Definition entry_points : list handler :=
  [(CommandHandler "start", start);
   (CommandHandler "start_meal", start_meal)].

Definition states (s : state) : list handler :=
  match s with
  | WAITING_FOR_PURCHASER_INFO => [(MessageHandler, collect_purchaser_name)]
  | WAITING_FOR_PARTICIPANTS =>
      [(MessageHandler, add_participant);
       (CommandHandler "remove", remove_participant);
       (CommandHandler "list", list_participants);
       (CommandHandler "done", finish_participants)]
  | REMOVING_PARTICIPANT => [(MessageHandler, confirm_participant_removal)]
  | WAITING_FOR_BILL => [(MessageHandler, process_bill)]
  | END => []
  end.

Definition fallbacks : list handler := [(CommandHandler "cancel", cancel)].

(** The first handler of the list that accepts the update. *)
Fixpoint first_match (hs : list handler) (u : Update)
    : option (string -> M state) :=
  match hs with
  | [] => None
  | (f, h) :: hs' => if matches f u then Some h else first_match hs' u
  end.

(** With no conversation under way only the entry points are tried; in a
    conversation the handlers of its state, then the fallbacks. *)
Definition check_update (s : state) (u : Update) : option (string -> M state) :=
  match s with
  | END => first_match entry_points u
  | _ =>
      match first_match (states s) u with
      | Some h => Some h
      | None => first_match fallbacks u
      end
  end.

(** One update of one conversation: the handler's return value is the new
    state; an exception that leaves the handler is logged by the
    application and the state stays; an update that no handler accepts is
    dropped. *)
Definition handle_update (s : state) (u : Update) (w : Env) : state * Env :=
  match check_update s u with
  | None => (s, w)
  | Some h =>
      match h (message_text u) w with
      | (Return s', w') => (s', w')
      | (Raise e, w') => (s, with_log (fun l => (l ++ [Error_unhandled e])%list) w')
      end
  end.

(** One user talking to the bot. *)
Fixpoint run (us : list Update) (s : state) (w : Env) : state * Env :=
  match us with
  | [] => (s, w)
  | u :: us' => let '(s', w') := handle_update s u w in run us' s' w'
  end.

(** The conversation handler keeps one state per chat and user, while all
    conversations are served by the one bot object. *)
Definition peer : Type := nat.

Definition conversations : Type := peer -> state.

Definition no_conversations : conversations := fun _ => END.

Definition set_conversation (p : peer) (s : state) (c : conversations)
    : conversations :=
  fun q => if Nat.eqb q p then s else c q.

Fixpoint run_peers (us : list (peer * Update)) (c : conversations) (w : Env)
    : conversations * Env :=
  match us with
  | [] => (c, w)
  | (p, u) :: us' =>
      let '(s', w') := handle_update (c p) u w in
      run_peers us' (set_conversation p s' c) w'
  end.

(** The environment in which [main] starts the bot. *)
Definition boot (telegram_token credentials_path spreadsheet : string)
    (now : datetime) (svc : Sheets) : Env :=
  {| self := __init__ telegram_token credentials_path spreadsheet now;
     service := svc; clock := now; sent := []; log := [] |}.

(** * The vocabulary of the statements *)

(** The outcome and final environment of [m] run from [w] satisfy [Q]. *)
Definition wp {A} (m : M A) (Q : outcome A -> Env -> Prop) (w : Env) : Prop :=
  Q (fst (m w)) (snd (m w)).

(** [w'] differs from [w] in the spreadsheet service at most. *)
Record service_only (w w' : Env) : Prop := {
  so_self : self w' = self w;
  so_clock : clock w' = clock w;
  so_sent : sent w' = sent w;
  so_log : log w' = log w
}.

(** The body of the sync either returns, having logged the one info
    record, or raises with the log as it was; the bot object and the
    messages sent are as before in both cases. *)
Definition sync_body_post (t : PyFloat.float) (w : Env)
    (r : outcome unit) (w' : Env) : Prop :=
  self w' = self w /\ clock w' = clock w /\ sent w' = sent w
  /\ match r with
     | Return _ => log w' = (log w ++ [Info_synced t])%list
     | Raise _ => log w' = log w
     end.

(** The participants after [for participant in d: d[participant] = share]. *)
Definition split_dict (share : PyFloat.float) (d : PyDict.dict num)
    : PyDict.dict num :=
  fold_left (fun d k => PyDict.setitem k (Float share) d) (PyDict.keys d) d.

(** The environment once the loop of the split has run. *)
Definition after_split (share : PyFloat.float) (w : Env) : Env :=
  with_self (set_participants (split_dict share)) w.

(** [round(total_bill / n, 2)] *)
Definition share_of (total_bill : PyFloat.float) (n : nat) : PyFloat.float :=
  PyFloat.round2
    (SFdiv PyFloat.prec PyFloat.emax total_bill (PyFloat.of_Z (Z.of_nat n))).

(** The environment with one more message sent. *)
Definition sent_reply (t : string) (mk : option markup) (w : Env) : Env :=
  with_sent (fun l => (l ++ [{| text := t; reply_markup := mk |}])%list) w.

(** The replies of the handlers. *)
Definition invalid_amount : reply :=
  {| text := "Invalid bill amount. Please enter a valid number.";
     reply_markup := None |}.

(** The rows of the worksheet before the sync appends to it: those it
    has, or the header row that the sync writes when it creates it. *)
Definition rows_before (svc : Sheets) : list row :=
  match PyDict.getitem "Meal Costs" (worksheets svc) with
  | Some rows => rows
  | None => [header_row]
  end.

Definition no_participants : reply :=
  {| text := "No participants added. Please add participants first.";
     reply_markup := None |}.

(** The reply of [/done] when there are participants. *)
Definition participants_listed (d : PyDict.dict num) : reply :=
  {| text := "Participants for this meal: " ++ PyStr.join ", " (PyDict.keys d)
             ++ nl ++ "Now, please send the total bill amount.";
     reply_markup := None |}.

Definition already_listed (name : string) : reply :=
  {| text := name ++ " is already in the participant list.";
     reply_markup := None |}.

Definition added (name : string) : reply :=
  {| text := "Added " ++ name ++ " to the meal."; reply_markup := None |}.

Definition removed (name : string) : reply :=
  {| text := "Removed " ++ name ++ " from the meal participants.";
     reply_markup := Some ReplyKeyboardRemove |}.

Definition not_found (name : string) : reply :=
  {| text := "Participant " ++ name ++ " not found.";
     reply_markup := Some ReplyKeyboardRemove |}.

Definition cancelled : reply :=
  {| text := "Meal tracking cancelled.";
     reply_markup := Some ReplyKeyboardRemove |}.

(** The bot object that [start_meal] leaves. *)
Definition fresh_meal (b : MealCostBot) (now : datetime) : MealCostBot :=
  {| token := token b;
     spreadsheet_id := spreadsheet_id b;
     current_meal_participants := [];
     current_meal_total_bill := Int 0;
     current_meal_date := now;
     current_meal_purchaser := [("name", EmptyString)] |}.

(** One handler call changes the participant map in one of five ways. *)
Inductive participants_step (d : PyDict.dict num) : PyDict.dict num -> Prop :=
| step_same : participants_step d d
| step_clear : participants_step d []
| step_add name :
    collides name d = false ->
    participants_step d (d ++ [(name, Int 0)])%list
| step_remove l1 k v l2 :
    d = (l1 ++ (k, v) :: l2)%list ->
    participants_step d (l1 ++ l2)%list
| step_split share : participants_step d (split_dict share d).

(** All the handlers that [setup_bot] registers. *)
Definition handlers : list (string -> M state) :=
  [start; start_meal; collect_purchaser_name; add_participant;
   remove_participant; list_participants; finish_participants;
   confirm_participant_removal; process_bill; cancel].

(** No two names are equal when case is ignored. *)
Definition ci_unique (d : PyDict.dict num) : Prop :=
  NoDup (map PyStr.lower (PyDict.keys d)).

(** A [ZeroDivisionError] that left a handler. *)
Definition division_by_zero (r : log_record) : bool :=
  match r with
  | Error_unhandled (ZeroDivisionError _) => true
  | _ => false
  end.

(** Some bill handler call has divided by zero. *)
Definition divided_by_zero (w : Env) : bool :=
  existsb division_by_zero (log w).

(** Whoever waits for the bill has somebody to share it with. *)
Definition bill_ready (s : state) (w : Env) : Prop :=
  s = WAITING_FOR_BILL -> current_meal_participants (self w) <> [].

(** ** Vocabulary of the further properties *)

(** [l[i:j]] for [0 <= i <= j]. *)
Definition slice {A} (l : list A) (i j : nat) : list A :=
  firstn (j - i) (skipn i l).

(** [range(0, n, step)] *)
Definition range_by (n step : nat) : list nat :=
  map (fun k => (k * step)%nat) (seq 0 ((n + step - 1) / step)).

(** [[l[i:i+3] for i in range(0, len(l), 3)]], the way the source writes
    the keyboard of [remove_participant]. *)
Definition keyboard_slices (l : list string) : list (list string) :=
  map (fun i => slice l i (i + 3)) (range_by (List.length l) 3).

(** The purchaser record has the key that the sync reads. *)
Definition has_purchaser_name (b : MealCostBot) : Prop :=
  PyDict.contains "name" (current_meal_purchaser b) = true.

(** The reply of [collect_purchaser_name]. *)
Definition thanks (name : string) : reply :=
  {| text :=
       "Thanks, " ++ name ++ ". "
       ++ "Purchaser information recorded. Now, please enter the names of all participants, "
       ++ "one name per message. Use /remove to remove a participant, "
       ++ "/list to see current participants, or /done when finished.";
     reply_markup := None |}.

(** Every name in the map is trimmed, as [add_participant] stores it. *)
Definition trimmed_keys (d : PyDict.dict num) : Prop :=
  Forall (fun k => PyStr.strip k = k) (PyDict.keys d).

(** Every worksheet that [s] has, [s'] has too, with the same rows
    first. *)
Definition sheets_grow (s s' : Sheets) : Prop :=
  forall title rows,
    PyDict.getitem title (worksheets s) = Some rows ->
    exists more,
      PyDict.getitem title (worksheets s') = Some (rows ++ more)%list.

(** The updates of one whole meal, from [/start_meal] to the bill. *)
Definition meal (purchaser : string) (names : list string) (bill : string)
    : list Update :=
  Command "start_meal" :: Text purchaser
  :: (map Text names ++ [Command "done"; Text bill])%list.

(** The environment after a new participant has been added. *)
Definition add_one (w : Env) (update : string) : Env :=
  with_sent (fun l => (l ++ [added (PyStr.strip update)])%list)
    (with_self
       (set_participants (fun d => (d ++ [(PyStr.strip update, Int 0)])%list)) w).

(** The reply of [start_meal]. *)
Definition starting : reply :=
  {| text :=
       "Starting a new meal. First, let's collect the purchaser's information."
       ++ nl ++ nl ++ "Please enter the purchaser's name:";
     reply_markup := None |}.

(** No participant has a share yet. *)
Definition unsplit (d : PyDict.dict num) : Prop :=
  Forall (fun kv => snd kv = Int 0) d.

(** Every character of [s] is a decimal digit. *)
Fixpoint all_digits (s : string) : bool :=
  match s with
  | EmptyString => true
  | String c s' => PyStr.is_digit c && all_digits s'
  end.

(** ** Examples to run the statements on *)

Module Example.

Definition today : datetime := {| year := 2026; month := 11; day := 3 |}.

Definition bot (d : PyDict.dict num) : MealCostBot :=
  {| token := "token";
     spreadsheet_id := "sheet";
     current_meal_participants := d;
     current_meal_total_bill := Int 0;
     current_meal_date := today;
     current_meal_purchaser := [("name", "Sam")] |}.

Definition env (d : PyDict.dict num) (fs : list (option exn)) : Env :=
  {| self := bot d;
     service := {| worksheets := []; faults := fs |};
     clock := today; sent := []; log := [] |}.

Definition alice_bob : PyDict.dict num := [("Alice", Int 0); ("Bob", Int 0)].

End Example.


(** * Properties *)

(** ** Floats: the length of a non-empty dict is not the float zero *)

Module PyFloatFacts.

Import PyFloat.

Lemma digits2_pos_lower (m : positive) :
  2 ^ (Z.pos (digits2_pos m) - 1) <= Z.pos m.
Proof.
  induction m as [m IH | m IH |]; simpl digits2_pos.
  - rewrite Pos2Z.inj_succ.
    replace (Z.succ (Z.pos (digits2_pos m)) - 1)
      with (Z.succ (Z.pos (digits2_pos m) - 1)) by lia.
    rewrite Z.pow_succ_r by lia. lia.
  - rewrite Pos2Z.inj_succ.
    replace (Z.succ (Z.pos (digits2_pos m)) - 1)
      with (Z.succ (Z.pos (digits2_pos m) - 1)) by lia.
    rewrite Z.pow_succ_r by lia. lia.
  - simpl. lia.
Qed.

Lemma shr_1_lower (mrs : shr_record) (k : Z) :
  0 <= k -> 2 ^ (1 + k) <= shr_m mrs -> 2 ^ k <= shr_m (shr_1 mrs).
Proof.
  intros Hk H.
  replace (1 + k) with (Z.succ k) in H by lia.
  rewrite Z.pow_succ_r in H by lia.
  destruct mrs as [m r s]. cbn [shr_m] in H.
  assert (0 < 2 ^ k) by (apply Z.pow_pos_nonneg; lia).
  destruct m as [|[q|q|]|q]; simpl; lia.
Qed.

Lemma iter_shr_1_lower (p : positive) :
  forall (mrs : shr_record) (k : Z),
    0 <= k -> 2 ^ (Z.pos p + k) <= shr_m mrs ->
    2 ^ k <= shr_m (iter_pos shr_1 p mrs).
Proof.
  induction p as [p IH | p IH |]; intros mrs k Hk H; simpl.
  - apply IH; [lia|]. apply IH; [lia|]. apply shr_1_lower; [lia|].
    replace (1 + (Z.pos p + (Z.pos p + k))) with (Z.pos p~1 + k) by lia.
    exact H.
  - apply IH; [lia|]. apply IH; [lia|].
    replace (Z.pos p + (Z.pos p + k)) with (Z.pos p~0 + k) by lia.
    exact H.
  - apply shr_1_lower; assumption.
Qed.

Lemma shr_m_of_loc (m : Z) (l : location) : shr_m (shr_record_of_loc m l) = m.
Proof. destruct l as [|[| |]]; reflexivity. Qed.

(** Shifting a positive mantissa down to its format exponent keeps it
    positive, as long as the exponent is not below the least one. *)
Lemma shr_fexp_pos (m : positive) (e : Z) (l : location) :
  emin prec emax <= e ->
  0 < shr_m (fst (shr_fexp prec emax (Z.pos m) e l))
  /\ emin prec emax <= snd (shr_fexp prec emax (Z.pos m) e l).
Proof.
  intros He. unfold shr_fexp, shr, fexp. simpl Zdigits2.
  pose proof (digits2_pos_lower m) as Hd.
  unfold emin, prec, emax in *.
  destruct (Z.max (Z.pos (digits2_pos m) + e - 53) (3 - 1024 - 53) - e)
    as [|n|n] eqn:En; simpl; rewrite ?shr_m_of_loc; try lia.
  split; [|lia].
  assert (2 ^ 0 <= shr_m (iter_pos shr_1 n (shr_record_of_loc (Z.pos m) l))).
  { assert (Hk : 0 <= Z.pos (digits2_pos m) - 1 - Z.pos n) by lia.
    pose proof (iter_shr_1_lower n (shr_record_of_loc (Z.pos m) l) _ Hk) as Hi.
    rewrite shr_m_of_loc in Hi.
    assert (Hle : 2 ^ 0 <= 2 ^ (Z.pos (digits2_pos m) - 1 - Z.pos n))
      by (apply Z.pow_le_mono_r; lia).
    etransitivity; [exact Hle|]. apply Hi.
    replace (Z.pos n + (Z.pos (digits2_pos m) - 1 - Z.pos n))
      with (Z.pos (digits2_pos m) - 1) by lia.
    exact Hd. }
  simpl in H. lia.
Qed.

Lemma round_nearest_even_lower (m : Z) (l : location) :
  m <= round_nearest_even m l.
Proof.
  destruct l as [|[| |]]; simpl; try lia. destruct (Z.even m); lia.
Qed.

Lemma binary_round_aux_nonzero (s : bool) (m : positive) (e : Z) (l : location) :
  emin prec emax <= e ->
  is_zero (binary_round_aux prec emax s (Z.pos m) e l) = false.
Proof.
  intros He. unfold binary_round_aux.
  destruct (shr_fexp_pos m e l He) as [H1 H2].
  destruct (shr_fexp prec emax (Z.pos m) e l) as [mrs' e'].
  simpl in H1, H2.
  pose proof (round_nearest_even_lower (shr_m mrs') (loc_of_shr_record mrs')) as Hr.
  destruct (round_nearest_even (shr_m mrs') (loc_of_shr_record mrs'))
    as [|m1|m1]; try lia.
  destruct (shr_fexp_pos m1 e' loc_Exact H2) as [H3 _].
  destruct (shr_fexp prec emax (Z.pos m1) e' loc_Exact) as [mrs'' e''].
  simpl in H3.
  destruct (shr_m mrs'') as [|m2|m2]; try lia.
  destruct (e'' <=? emax - prec); reflexivity.
Qed.

(** [float(n)] of a positive integer is not zero. *)
Lemma of_Z_pos_nonzero (p : positive) : is_zero (of_Z (Z.pos p)) = false.
Proof.
  unfold of_Z, binary_normalize, binary_round, shl_align.
  unfold fexp, emin, prec, emax.
  destruct (Z.max (Z.pos (digits2_pos p) + 0 - 53) (3 - 1024 - 53) - 0)
    as [|d|d] eqn:Ed;
    apply binary_round_aux_nonzero; unfold emin, prec, emax; lia.
Qed.

(** Dividing by the number of participants succeeds when there is one. *)
Lemma truediv_len (v : float) (n : nat) :
  n <> O ->
  truediv v (of_Z (Z.of_nat n))
  = Some (SFdiv prec emax v (of_Z (Z.of_nat n))).
Proof.
  intros Hn. destruct n as [|n]; [congruence|].
  rewrite Nat2Z.inj_succ, <- Zpos_P_of_succ_nat.
  pose proof (of_Z_pos_nonzero (Pos.of_succ_nat n)) as H.
  unfold truediv. destruct (of_Z (Z.pos (Pos.of_succ_nat n))); simpl in H;
    [discriminate | reflexivity | reflexivity | reflexivity].
Qed.

Lemma truediv_zero (v : float) : truediv v (of_Z (Z.of_nat 0)) = None.
Proof. reflexivity. Qed.

End PyFloatFacts.

(** ** Dicts *)

Module PyDictFacts.

Import PyDict.
Local Open Scope list_scope.

Section Facts.
Context {V : Type}.
Implicit Types (d : dict V) (k : string) (v : V).

Lemma contains_In k d : contains k d = true <-> In k (keys d).
Proof.
  unfold contains. rewrite existsb_exists. split.
  - intros [x [Hx He]]. apply String.eqb_eq in He. now subst.
  - intros H. exists k. split; [assumption | apply String.eqb_refl].
Qed.

Lemma contains_not_In k d : contains k d = false <-> ~ In k (keys d).
Proof.
  rewrite <- contains_In. destruct (contains k d); split; congruence.
Qed.

Lemma keys_app d1 d2 : keys (d1 ++ d2) = (keys d1 ++ keys d2)%list.
Proof. apply map_app. Qed.

Lemma keys_replace k v d : keys (replace k v d) = keys d.
Proof.
  induction d as [|[k' v'] d IH]; simpl; [reflexivity|].
  destruct (String.eqb k k'); simpl; [reflexivity | now rewrite IH].
Qed.

Lemma keys_setitem_In k v d : In k (keys d) -> keys (setitem k v d) = keys d.
Proof.
  intros H. unfold setitem. apply contains_In in H. rewrite H.
  apply keys_replace.
Qed.

Lemma setitem_fresh k v d :
  contains k d = false -> setitem k v d = (d ++ [(k, v)])%list.
Proof. intros H. unfold setitem. now rewrite H. Qed.

Lemma replace_middle k v x (pre suf : dict V) :
  ~ In k (keys pre) ->
  replace k v (pre ++ (k, x) :: suf) = (pre ++ (k, v) :: suf)%list.
Proof.
  induction pre as [|[k' v'] pre IH]; simpl; intros H.
  - now rewrite String.eqb_refl.
  - destruct (String.eqb_spec k k') as [->|Hne]; [tauto|].
    rewrite IH; tauto.
Qed.

(** The loop [for k in d: d[k] = v] over a prefix already done. *)
Lemma fold_setitem_from v (suf : dict V) :
  forall pre : dict V,
    NoDup (keys (pre ++ suf)) ->
    fold_left (fun d k => setitem k v d) (keys suf) (pre ++ suf)%list
    = (pre ++ map (fun kv => (fst kv, v)) suf)%list.
Proof.
  induction suf as [|[k x] suf IH]; intros pre Hnd; simpl; [reflexivity|].
  assert (Hpre : ~ In k (keys pre)).
  { rewrite keys_app in Hnd. simpl in Hnd.
    apply NoDup_remove_2 in Hnd. rewrite in_app_iff in Hnd. tauto. }
  assert (Hin : contains k (pre ++ (k, x) :: suf) = true).
  { apply contains_In. rewrite keys_app, in_app_iff. simpl. tauto. }
  unfold setitem at 2. rewrite Hin, (replace_middle _ _ _ _ _ Hpre).
  replace (pre ++ (k, v) :: suf)%list
    with ((pre ++ [(k, v)]) ++ suf)%list by now rewrite <- app_assoc.
  rewrite IH.
  - now rewrite <- app_assoc.
  - rewrite <- app_assoc. simpl.
    rewrite keys_app in *. simpl in *. exact Hnd.
Qed.

Lemma fold_setitem_all v d :
  wf d ->
  fold_left (fun d k => setitem k v d) (keys d) d
  = map (fun kv => (fst kv, v)) d.
Proof. intros H. exact (fold_setitem_from v d [] H). Qed.

(** The loop never changes the keys, well-formed dict or not. *)
Lemma keys_fold_setitem v (ks : list string) :
  forall d, incl ks (keys d) ->
            keys (fold_left (fun d k => setitem k v d) ks d) = keys d.
Proof.
  induction ks as [|k ks IH]; intros d Hi; simpl; [reflexivity|].
  assert (Hk : In k (keys d)) by (apply Hi; now left).
  rewrite IH; [now apply keys_setitem_In|].
  rewrite keys_setitem_In by assumption.
  intros x Hx. apply Hi. now right.
Qed.

Lemma delitem_miss k d : ~ In k (keys d) -> delitem k d = None.
Proof.
  induction d as [|[k' v'] d IH]; simpl; intros H; [reflexivity|].
  destruct (String.eqb_spec k k') as [->|Hne]; [tauto|].
  rewrite IH; tauto.
Qed.

Lemma delitem_hit k d :
  In k (keys d) ->
  exists l1 v l2,
    d = (l1 ++ (k, v) :: l2)%list /\ ~ In k (keys l1)
    /\ delitem k d = Some (l1 ++ l2)%list.
Proof.
  induction d as [|[k' v'] d IH]; simpl; intros H; [tauto|].
  destruct (String.eqb_spec k k') as [->|Hne].
  - exists [], v', d. simpl. tauto.
  - destruct IH as (l1 & v & l2 & Hd & Hn & He); [intuition congruence|].
    exists ((k', v') :: l1), v, l2. rewrite He, Hd. simpl.
    intuition congruence.
Qed.

Lemma delitem_last k v d :
  ~ In k (keys d) -> delitem k (d ++ [(k, v)]) = Some d.
Proof.
  induction d as [|[k' v'] d IH]; simpl; intros H.
  - now rewrite String.eqb_refl.
  - destruct (String.eqb_spec k k') as [->|Hne]; [tauto|].
    rewrite IH; tauto.
Qed.

Lemma getitem_app_other k k' v (l1 l2 : dict V) :
  k' <> k ->
  getitem k' (l1 ++ (k, v) :: l2) = getitem k' (l1 ++ l2).
Proof.
  intros Hne. induction l1 as [|[k1 v1] l1 IH]; simpl.
  - destruct (String.eqb_spec k' k); [congruence | reflexivity].
  - now rewrite IH.
Qed.

Lemma getitem_replace k v d :
  In k (keys d) -> getitem k (replace k v d) = Some v.
Proof.
  induction d as [|[k' v'] d IH]; simpl; intros H; [tauto|].
  destruct (String.eqb_spec k k') as [->|Hne]; simpl.
  - now rewrite String.eqb_refl.
  - destruct (String.eqb_spec k k'); [congruence|].
    apply IH. intuition congruence.
Qed.

Lemma getitem_app_fresh k v d :
  ~ In k (keys d) -> getitem k (d ++ [(k, v)]) = Some v.
Proof.
  induction d as [|[k' v'] d IH]; simpl; intros H.
  - now rewrite String.eqb_refl.
  - destruct (String.eqb_spec k k') as [->|Hne]; [tauto|].
    apply IH. tauto.
Qed.

Lemma getitem_setitem k v d : getitem k (setitem k v d) = Some v.
Proof.
  unfold setitem. destruct (contains k d) eqn:E.
  - apply getitem_replace. now apply contains_In.
  - apply getitem_app_fresh. now apply contains_not_In.
Qed.

Lemma getitem_map_const k v d :
  In k (keys d) -> getitem k (map (fun kv => (fst kv, v)) d) = Some v.
Proof.
  induction d as [|[k' v'] d IH]; simpl; intros H; [tauto|].
  destruct (String.eqb_spec k k') as [->|Hne]; [reflexivity|].
  apply IH. intuition congruence.
Qed.

End Facts.

End PyDictFacts.

(** ** A weakest-precondition calculus for handlers *)

Section WpRules.
Context {A : Type}.
Implicit Types (Q : outcome A -> Env -> Prop) (w : Env).

Lemma wp_ret (a : A) Q w : Q (Return a) w -> wp (ret a) Q w.
Proof. exact (fun H => H). Qed.

Lemma wp_raise (e : exn) Q w : Q (Raise e) w -> wp (raise e) Q w.
Proof. exact (fun H => H). Qed.

Lemma wp_bind {B} (m : M B) (k : B -> M A) Q w :
  wp m (fun r w' => match r with
                    | Return b => wp (k b) Q w'
                    | Raise e => Q (Raise e) w'
                    end) w ->
  wp (bind m k) Q w.
Proof. unfold wp, bind. destruct (m w) as [[b|e] w']; simpl; auto. Qed.

Lemma wp_try (body : M A) (c : except_clause) (h : exn -> M A) Q w :
  wp body (fun r w' => match r with
                       | Return a => Q (Return a) w'
                       | Raise e => if catches c e then wp (h e) Q w'
                                    else Q (Raise e) w'
                       end) w ->
  wp (try_except body c h) Q w.
Proof.
  unfold wp, try_except. destruct (body w) as [[a|e] w']; simpl; auto.
  destruct (catches c e); auto.
Qed.

Lemma wp_of_option (o : option A) (e : exn) Q w :
  match o with Some a => Q (Return a) w | None => Q (Raise e) w end ->
  wp (of_option o e) Q w.
Proof. destruct o; exact (fun H => H). Qed.

End WpRules.

Lemma wp_get_self Q w : Q (Return (self w)) w -> wp get_self Q w.
Proof. exact (fun H => H). Qed.

Lemma wp_modify_self f Q w : Q (Return tt) (with_self f w) -> wp (modify_self f) Q w.
Proof. exact (fun H => H). Qed.

Lemma wp_reply_text t mk Q w :
  Q (Return tt)
    (with_sent (fun l => (l ++ [{| text := t; reply_markup := mk |}])%list) w) ->
  wp (reply_text t mk) Q w.
Proof. exact (fun H => H). Qed.

Lemma wp_logger r Q w :
  Q (Return tt) (with_log (fun l => (l ++ [r])%list) w) -> wp (logger r) Q w.
Proof. exact (fun H => H). Qed.

(** *** The spreadsheet client changes the service and nothing else. *)

Lemma service_only_refl w : service_only w w.
Proof. now split. Qed.

Lemma service_only_trans w1 w2 w3 :
  service_only w1 w2 -> service_only w2 w3 -> service_only w1 w3.
Proof. intros [] []. split; congruence. Qed.

Lemma service_only_with_service f w : service_only w (with_service f w).
Proof. now split. Qed.

Create HintDb frame.
#[local] Hint Resolve service_only_refl service_only_with_service : frame.

Lemma wp_api_call Q w :
  (forall r w', service_only w w' -> Q r w') -> wp api_call Q w.
Proof.
  intros H. unfold wp, api_call.
  destruct (faults (service w)) as [|[e|] fs]; simpl; auto with frame.
Qed.

Lemma wp_get_worksheets Q w :
  Q (Return (worksheets (service w))) w -> wp get_worksheets Q w.
Proof. exact (fun H => H). Qed.

Lemma wp_open_by_key key Q w :
  (forall r w', service_only w w' -> Q r w') -> wp (open_by_key key) Q w.
Proof. apply wp_api_call. Qed.

Lemma wp_worksheet title Q w :
  (forall r w', service_only w w' -> Q r w') -> wp (worksheet title) Q w.
Proof.
  intros H. unfold worksheet. apply wp_bind, wp_api_call.
  intros [[]|e] w1 H1; [|auto].
  apply wp_bind, wp_get_worksheets.
  destruct (PyDict.contains title (worksheets (service w1)));
    [apply wp_ret | apply wp_raise]; auto.
Qed.

Lemma wp_add_worksheet title rows cols Q w :
  (forall r w', service_only w w' -> Q r w') ->
  wp (add_worksheet title rows cols) Q w.
Proof.
  intros H. unfold add_worksheet. apply wp_bind, wp_api_call.
  intros [[]|e] w1 H1; [|auto].
  apply wp_bind, wp_get_worksheets.
  destruct (PyDict.contains title (worksheets (service w1))).
  - apply wp_raise; auto.
  - unfold wp; simpl. apply H.
    eapply service_only_trans; eauto with frame.
Qed.

Lemma wp_append_row ws values Q w :
  (forall r w', service_only w w' -> Q r w') -> wp (append_row ws values) Q w.
Proof.
  intros H. unfold append_row. apply wp_bind, wp_api_call.
  intros [[]|e] w1 H1; [|auto].
  apply wp_bind, wp_get_worksheets.
  destruct (PyDict.getitem ws (worksheets (service w1))).
  - unfold wp; simpl. apply H.
    eapply service_only_trans; eauto with frame.
  - apply wp_raise; auto.
Qed.

Lemma sync_body_spec t s w : wp (sync_body t s) (sync_body_post t w) w.
Proof.
  assert (Hraise : forall e w', service_only w w' ->
                                sync_body_post t w (Raise e) w').
  { intros e w' []. repeat split; assumption. }
  unfold sync_body.
  apply wp_bind, wp_get_self, wp_bind, wp_open_by_key.
  intros [[]|e] w1 H1; [|auto].
  assert (Hk : forall (ws : string) w2,
             service_only w w2 ->
             wp (b <- get_self ;;
                 name <- of_option
                           (PyDict.getitem "name" (current_meal_purchaser b))
                           (KeyError "name") ;;
                 append_row ws (meal_row b name t s) ;;
                 logger (Info_synced t)) (sync_body_post t w) w2).
  { intros ws w2 H2. apply wp_bind, wp_get_self, wp_bind, wp_of_option.
    destruct (PyDict.getitem "name" (current_meal_purchaser (self w2)));
      [|auto].
    apply wp_bind, wp_append_row. intros [[]|e] w3 H3.
    - apply wp_logger.
      destruct (service_only_trans _ _ _ H2 H3).
      repeat split; simpl; congruence.
    - apply Hraise. eapply service_only_trans; eauto. }
  apply wp_bind, wp_try, wp_worksheet. intros [ws|e] w2 H2.
  - apply Hk. eapply service_only_trans; eauto.
  - assert (H12 := service_only_trans _ _ _ H1 H2).
    destruct (catches except_WorksheetNotFound e); [|auto].
    apply wp_bind, wp_add_worksheet. intros [ws|e'] w3 H3.
    + assert (H13 := service_only_trans _ _ _ H12 H3).
      apply wp_bind, wp_append_row. intros [[]|e''] w4 H4.
      * apply wp_ret, Hk. eapply service_only_trans; eauto.
      * apply Hraise. eapply service_only_trans; eauto.
    + apply Hraise. eapply service_only_trans; eauto.
Qed.

(** [sync_to_google_sheets] always returns: whatever its body raises is
    caught there and logged. *)
Lemma sync_to_google_sheets_spec t s w :
  exists w',
    sync_to_google_sheets t s w = (Return tt, w')
    /\ self w' = self w /\ clock w' = clock w /\ sent w' = sent w
    /\ match fst (sync_body t s w) with
       | Return _ => log w' = (log w ++ [Info_synced t])%list
       | Raise e => log w' = (log w ++ [Error_syncing e])%list
       end.
Proof.
  pose proof (sync_body_spec t s w) as H.
  unfold wp, sync_body_post in H. unfold sync_to_google_sheets, try_except.
  destruct (sync_body t s w) as [[[]|e] w1]; simpl in *.
  - exists w1. tauto.
  - eexists. split; [reflexivity|]. destruct H as (H1 & H2 & H3 & H4).
    simpl. rewrite H4. tauto.
Qed.

(** ** The bill handler, path by path *)

Lemma for_each_setitem_eq (v : num) (ks : list string) :
  forall w,
    for_each ks (fun k => modify_self (set_participants (PyDict.setitem k v))) w
    = (Return tt,
       with_self
         (set_participants (fold_left (fun d k => PyDict.setitem k v d) ks)) w).
Proof.
  induction ks as [|k ks IH]; intros w.
  - destruct w as [[] ? ? ? ?]. reflexivity.
  - simpl for_each. unfold bind at 1. simpl. rewrite IH.
    destruct w as [[] ? ? ? ?]. reflexivity.
Qed.

(** A text that [float] rejects: the invalid-amount reply and nothing else. *)
Lemma process_bill_invalid text w :
  PyFloat.of_string (PyStr.strip text) = None ->
  process_bill text w
  = (Return WAITING_FOR_BILL,
     sent_reply "Invalid bill amount. Please enter a valid number." None w).
Proof.
  intros H. unfold process_bill, try_except, process_bill_body, bind.
  rewrite H. reflexivity.
Qed.

(** A number, but nobody to share it: the division raises, uncaught. *)
Lemma process_bill_nobody text v w :
  PyFloat.of_string (PyStr.strip text) = Some v ->
  current_meal_participants (self w) = [] ->
  process_bill text w
  = (Raise (ZeroDivisionError "float division by zero"), w).
Proof.
  intros H Hd. unfold process_bill, try_except, process_bill_body, bind.
  rewrite H. simpl. rewrite Hd. reflexivity.
Qed.

(** A number and somebody to share it: the split, the sync, the reply. *)
Lemma process_bill_split text v w :
  PyFloat.of_string (PyStr.strip text) = Some v ->
  current_meal_participants (self w) <> [] ->
  let d := current_meal_participants (self w) in
  let share := share_of v (PyDict.len d) in
  process_bill text w
  = (Return END,
     sent_reply (bill_message (split_dict share d) v) None
       (snd (sync_to_google_sheets v share (after_split share w)))).
Proof.
  intros H Hd d share.
  assert (Hn : PyDict.len d <> O) by (subst d; destruct (current_meal_participants (self w)); simpl; congruence).
  unfold process_bill, try_except, process_bill_body, bind.
  rewrite H. simpl. fold d. rewrite (PyFloatFacts.truediv_len v _ Hn). simpl.
  rewrite for_each_setitem_eq.
  change (with_self _ w) with (after_split share w).
  destruct (sync_to_google_sheets_spec v share (after_split share w))
    as (w' & Hs & _).
  change (PyFloat.round2 _) with share. rewrite Hs. reflexivity.
Qed.

Lemma handle_update_bill text w :
  handle_update WAITING_FOR_BILL (Text text) w
  = match process_bill text w with
    | (Return s', w') => (s', w')
    | (Raise e, w') =>
        (WAITING_FOR_BILL, with_log (fun l => (l ++ [Error_unhandled e])%list) w')
    end.
Proof. reflexivity. Qed.

Lemma after_split_participants share w :
  PyDict.wf (current_meal_participants (self w)) ->
  current_meal_participants (self (after_split share w))
  = map (fun kv => (fst kv, Float share)) (current_meal_participants (self w)).
Proof. intros H. simpl. now apply PyDictFacts.fold_setitem_all. Qed.

Lemma nonempty_len {V} (d : PyDict.dict V) : (1 <= PyDict.len d)%nat -> d <> [].
Proof. destruct d; simpl; [lia | congruence]. Qed.

(** The handler's part of the environment after an accepted bill. *)
Lemma bill_accepted text v w :
  PyFloat.of_string (PyStr.strip text) = Some v ->
  current_meal_participants (self w) <> [] ->
  let d := current_meal_participants (self w) in
  let share := share_of v (PyDict.len d) in
  let r := handle_update WAITING_FOR_BILL (Text text) w in
  fst r = END
  /\ self (snd r) = self (after_split share w)
  /\ clock (snd r) = clock w
  /\ sent (snd r)
     = (sent w ++ [{| text := bill_message (split_dict share d) v;
                      reply_markup := None |}])%list.
Proof.
  intros H Hd d share r. subst r.
  rewrite handle_update_bill, (process_bill_split text v w H Hd).
  fold d share.
  destruct (sync_to_google_sheets_spec v share (after_split share w))
    as (w' & Hs & Hself & Hclock & Hsent & _).
  rewrite Hs. simpl. rewrite Hself, Hclock, Hsent. auto.
Qed.

Lemma wf_alice_bob : PyDict.wf Example.alice_bob.
Proof.
  unfold PyDict.wf, Example.alice_bob. simpl.
  repeat constructor; simpl; intuition discriminate.
Defined.

(** The scenario of the specification: Sam pays 100 for Alice and Bob. *)
Example scenario_100 :
  let r := run [Command "start_meal"; Text "Sam"; Text "Alice"; Text "Bob";
                Command "done"; Text "100"] END
             (boot "token" "google_credential.json" "sheet" Example.today {| worksheets := []; faults := [] |}) in
  fst r = END
  /\ option_map text (nth_error (sent (snd r)) 5)
     = Some ("Bill Split:" ++ nl ++ "Alice: $50.00" ++ nl ++ "Bob: $50.00" ++ nl
             ++ nl ++ "Total Bill: $100.00")
  /\ option_map (@List.length row)
       (PyDict.getitem "Meal Costs" (worksheets (service (snd r)))) = Some 2%nat.
Proof. vm_compute. repeat split. Qed.

(** ** The split *)

(** C1. In the bill-awaiting state, with n >= 1 participants and a bill
    text that parses as the number [total_bill], the split gives every
    participant the one share [round(total_bill / n, 2)]: the division is
    defined, it is rounded once, and that one value is stored under every
    name (the names and their order stay as they were). *)
Theorem split_assigns_equal_shares
    (w : Env) (update : string) (total_bill : PyFloat.float) :
  PyDict.wf (current_meal_participants (self w)) ->
  (1 <= PyDict.len (current_meal_participants (self w)))%nat ->
  PyFloat.of_string (PyStr.strip update) = Some total_bill ->
  let d := current_meal_participants (self w) in
  let r := handle_update WAITING_FOR_BILL (Text update) w in
  exists quotient,
    PyFloat.truediv total_bill (PyFloat.of_Z (Z.of_nat (PyDict.len d)))
    = Some quotient
    /\ fst r = END
    /\ current_meal_participants (self (snd r))
       = map (fun kv => (fst kv, Float (PyFloat.round2 quotient))) d
    /\ forall name,
         In name (PyDict.keys d) ->
         PyDict.getitem name (current_meal_participants (self (snd r)))
         = Some (Float (PyFloat.round2 quotient)).
Proof.
  intros Hwf Hn Hparse d r.
  assert (Hd : d <> []) by now apply nonempty_len.
  exists (SFdiv PyFloat.prec PyFloat.emax total_bill
            (PyFloat.of_Z (Z.of_nat (PyDict.len d)))).
  destruct (bill_accepted update total_bill w Hparse Hd) as (Hs & Hself & _).
  fold d r in Hs, Hself.
  assert (Hmap : current_meal_participants (self (snd r))
                 = map (fun kv => (fst kv, Float (share_of total_bill (PyDict.len d)))) d).
  { rewrite Hself. now apply after_split_participants. }
  repeat split.
  - apply PyFloatFacts.truediv_len. subst d. lia.
  - exact Hs.
  - exact Hmap.
  - intros name Hin. rewrite Hmap.
    now apply PyDictFacts.getitem_map_const.
Qed.

Lemma split_assigns_equal_shares_witness :
  let w := Example.env Example.alice_bob [] in
  let r := handle_update WAITING_FOR_BILL (Text "100") w in
  PyDict.wf (current_meal_participants (self w))
  /\ (1 <= PyDict.len (current_meal_participants (self w)))%nat
  /\ PyFloat.of_string (PyStr.strip "100") = Some (PyFloat.of_decimal false 100 0)
  /\ exists quotient,
       PyFloat.truediv (PyFloat.of_decimal false 100 0) (PyFloat.of_Z 2)
       = Some quotient
       /\ fst r = END
       /\ PyDict.getitem "Bob" (current_meal_participants (self (snd r)))
          = Some (Float (PyFloat.round2 quotient)).
Proof.
  intros w r.
  assert (Hn : (1 <= PyDict.len (current_meal_participants (self w)))%nat)
    by (simpl; lia).
  destruct (split_assigns_equal_shares w "100" (PyFloat.of_decimal false 100 0)
              wf_alice_bob Hn eq_refl)
    as (q & Hq & Hs & _ & Hget).
  split; [exact wf_alice_bob|]. split; [exact Hn|]. split; [reflexivity|].
  exists q. split; [exact Hq|]. split; [exact Hs|].
  apply Hget. simpl. auto.
Defined.

(** ** Invalid amounts *)

Lemma handle_update_invalid u w :
  PyFloat.of_string (PyStr.strip u) = None ->
  handle_update WAITING_FOR_BILL (Text u) w
  = (WAITING_FOR_BILL, with_sent (fun l => (l ++ [invalid_amount])%list) w).
Proof.
  intros H. rewrite handle_update_bill, (process_bill_invalid u w H).
  reflexivity.
Qed.

(** C5. In the bill-awaiting state every text that does not parse as a
    number gets the invalid-amount reply and leaves the session waiting for
    the bill, however many times in a row (a single attempt is the
    one-element sequence); the bot object, and so the participant map with
    its names and shares, is not modified, and neither is the spreadsheet. *)
Theorem invalid_bill_keeps_waiting (w : Env) (updates : list string) :
  Forall (fun u => PyFloat.of_string (PyStr.strip u) = None) updates ->
  let r := run (map Text updates) WAITING_FOR_BILL w in
  fst r = WAITING_FOR_BILL
  /\ self (snd r) = self w
  /\ service (snd r) = service w
  /\ log (snd r) = log w
  /\ sent (snd r) = (sent w ++ repeat invalid_amount (List.length updates))%list.
Proof.
  intros H. revert w.
  induction H as [|u updates Hu _ IH]; intros w; simpl.
  - rewrite app_nil_r. auto.
  - rewrite (handle_update_invalid u w Hu).
    specialize (IH (with_sent (fun l => (l ++ [invalid_amount])%list) w)).
    simpl in IH. destruct IH as (H1 & H2 & H3 & H4 & H5).
    repeat split; try assumption.
    rewrite H5, <- app_assoc. reflexivity.
Qed.

Lemma invalid_bill_keeps_waiting_witness :
  Forall (fun u => PyFloat.of_string (PyStr.strip u) = None)
    ["abc"; "12 dollars"; "1e"]
  /\ fst (run (map Text ["abc"; "12 dollars"; "1e"]) WAITING_FOR_BILL
            (Example.env Example.alice_bob [])) = WAITING_FOR_BILL
  /\ self (snd (run (map Text ["abc"; "12 dollars"; "1e"]) WAITING_FOR_BILL
                  (Example.env Example.alice_bob [])))
     = Example.bot Example.alice_bob.
Proof.
  assert (H : Forall (fun u => PyFloat.of_string (PyStr.strip u) = None)
                ["abc"; "12 dollars"; "1e"])
    by (repeat constructor).
  split; [exact H|].
  destruct (invalid_bill_keeps_waiting (Example.env Example.alice_bob []) _ H)
    as (H1 & H2 & _).
  split; [exact H1 | exact H2].
Defined.

(** ** The ledger sync *)

(** C6. Whatever the spreadsheet service raises during the sync is caught
    and logged inside [sync_to_google_sheets], which therefore always
    returns; so a completed split sends the same itemized message, leaves
    the same bot object and ends the conversation in the same way whether
    the sync fails or succeeds (the two runs below differ in the service
    only). *)
Theorem sync_failure_is_swallowed
    (w : Env) (update : string) (total_bill : PyFloat.float) :
  PyFloat.of_string (PyStr.strip update) = Some total_bill ->
  current_meal_participants (self w) <> [] ->
  let d := current_meal_participants (self w) in
  let share := share_of total_bill (PyDict.len d) in
  let r := handle_update WAITING_FOR_BILL (Text update) w in
  (forall t s w1,
      exists w2,
        sync_to_google_sheets t s w1 = (Return tt, w2)
        /\ self w2 = self w1 /\ sent w2 = sent w1
        /\ forall e, fst (sync_body t s w1) = Raise e ->
                     log w2 = (log w1 ++ [Error_syncing e])%list)
  /\ fst r = END
  /\ sent (snd r)
     = (sent w ++ [{| text := bill_message (split_dict share d) total_bill;
                      reply_markup := None |}])%list
  /\ (forall w_ok,
        self w_ok = self w -> sent w_ok = sent w ->
        let r_ok := handle_update WAITING_FOR_BILL (Text update) w_ok in
        fst r = fst r_ok
        /\ sent (snd r) = sent (snd r_ok)
        /\ self (snd r) = self (snd r_ok)).
Proof.
  intros Hparse Hd d share r.
  destruct (bill_accepted update total_bill w Hparse Hd)
    as (Hs & Hself & _ & Hsent).
  fold d share r in Hs, Hself, Hsent.
  split; [|split; [exact Hs | split; [exact Hsent|]]].
  - intros t s w1.
    destruct (sync_to_google_sheets_spec t s w1)
      as (w2 & H1 & H2 & _ & H3 & H4).
    exists w2. repeat split; try assumption.
    intros e He. now rewrite He in H4.
  - intros w_ok Hb Hm r_ok.
    assert (Hd' : current_meal_participants (self w_ok) <> [])
      by (rewrite Hb; exact Hd).
    destruct (bill_accepted update total_bill w_ok Hparse Hd')
      as (Hs' & Hself' & _ & Hsent').
    fold r_ok in Hs', Hself', Hsent'. rewrite Hb, Hm in *.
    fold d share in Hself', Hsent'.
    repeat split; try congruence.
    rewrite Hself, Hself'. simpl. now rewrite Hb.
Qed.

Lemma sync_failure_is_swallowed_witness :
  let w_fail := Example.env Example.alice_bob [None; Some (APIError "quota")] in
  let w_ok := Example.env Example.alice_bob [] in
  PyFloat.of_string (PyStr.strip "100") = Some (PyFloat.of_decimal false 100 0)
  /\ current_meal_participants (self w_fail) <> []
  /\ fst (handle_update WAITING_FOR_BILL (Text "100") w_fail)
     = fst (handle_update WAITING_FOR_BILL (Text "100") w_ok)
  /\ sent (snd (handle_update WAITING_FOR_BILL (Text "100") w_fail))
     = sent (snd (handle_update WAITING_FOR_BILL (Text "100") w_ok)).
Proof.
  intros w_fail w_ok.
  assert (H1 : PyFloat.of_string (PyStr.strip "100")
               = Some (PyFloat.of_decimal false 100 0)) by reflexivity.
  assert (H2 : current_meal_participants (self w_fail) <> [])
    by (simpl; discriminate).
  destruct (sync_failure_is_swallowed w_fail "100" _ H1 H2)
    as (_ & _ & _ & H).
  destruct (H w_ok eq_refl eq_refl) as (Ha & Hb & _).
  exact (conj H1 (conj H2 (conj Ha Hb))).
Defined.

(** The failing run of the witness does log the error. *)
Example sync_failure_logged :
  log (snd (handle_update WAITING_FOR_BILL (Text "100")
              (Example.env Example.alice_bob [None; Some (APIError "quota")])))
  = [Error_syncing (APIError "quota")].
Proof. reflexivity. Qed.

Lemma getitem_of_contains {V} (k : string) (d : PyDict.dict V) :
  PyDict.contains k d = true -> exists v, PyDict.getitem k d = Some v.
Proof.
  unfold PyDict.contains, PyDict.keys.
  induction d as [|[k' v'] d IH]; simpl; [discriminate|].
  destruct (String.eqb k k'); simpl; eauto.
Qed.

Lemma getitem_of_not_contains {V} (k : string) (d : PyDict.dict V) :
  PyDict.contains k d = false -> PyDict.getitem k d = None.
Proof.
  unfold PyDict.contains, PyDict.keys.
  induction d as [|[k' v'] d IH]; simpl; [reflexivity|].
  destruct (String.eqb k k'); simpl; [discriminate | assumption].
Qed.

(** *** The spreadsheet client when the service answers every call *)

Lemma wp_api_call_ok Q w :
  faults (service w) = [] -> Q (Return tt) w -> wp api_call Q w.
Proof. intros Hf H. unfold wp, api_call. rewrite Hf. exact H. Qed.

Lemma wp_worksheet_ok title Q w :
  faults (service w) = [] ->
  (if PyDict.contains title (worksheets (service w))
   then Q (Return title) w
   else Q (Raise (WorksheetNotFound title)) w) ->
  wp (worksheet title) Q w.
Proof.
  intros Hf H. unfold worksheet.
  apply wp_bind, wp_api_call_ok; [assumption|].
  apply wp_bind, wp_get_worksheets.
  destruct (PyDict.contains title (worksheets (service w)));
    [apply wp_ret | apply wp_raise]; exact H.
Qed.

Lemma wp_add_worksheet_ok title rows cols Q w :
  faults (service w) = [] ->
  PyDict.contains title (worksheets (service w)) = false ->
  Q (Return title)
    (with_service (set_worksheets (PyDict.setitem title [])) w) ->
  wp (add_worksheet title rows cols) Q w.
Proof.
  intros Hf Hc H. unfold add_worksheet.
  apply wp_bind, wp_api_call_ok; [assumption|].
  apply wp_bind, wp_get_worksheets. rewrite Hc. exact H.
Qed.

Lemma wp_append_row_ok ws values rows Q w :
  faults (service w) = [] ->
  PyDict.getitem ws (worksheets (service w)) = Some rows ->
  Q (Return tt)
    (with_service
       (set_worksheets (PyDict.setitem ws (rows ++ [values])%list)) w) ->
  wp (append_row ws values) Q w.
Proof.
  intros Hf Hg H. unfold append_row.
  apply wp_bind, wp_api_call_ok; [assumption|].
  apply wp_bind, wp_get_worksheets. rewrite Hg. exact H.
Qed.

(** With the service answering every call, the sync appends the row. *)
Lemma sync_appends_row t s w name :
  faults (service w) = [] ->
  PyDict.getitem "name" (current_meal_purchaser (self w)) = Some name ->
  let w' := snd (sync_to_google_sheets t s w) in
  PyDict.getitem "Meal Costs" (worksheets (service w'))
  = Some (rows_before (service w) ++ [meal_row (self w) name t s])%list
  /\ log w' = (log w ++ [Info_synced t])%list.
Proof.
  intros Hf Hname.
  change (wp (sync_to_google_sheets t s)
            (fun _ w' =>
               PyDict.getitem "Meal Costs" (worksheets (service w'))
               = Some (rows_before (service w) ++ [meal_row (self w) name t s])%list
               /\ log w' = (log w ++ [Info_synced t])%list) w).
  unfold sync_to_google_sheets, sync_body.
  apply wp_try, wp_bind, wp_get_self, wp_bind, wp_api_call_ok; [assumption|].
  apply wp_bind, wp_try, wp_worksheet_ok; [assumption|].
  unfold rows_before.
  destruct (PyDict.contains "Meal Costs" (worksheets (service w))) eqn:E.
  - destruct (getitem_of_contains _ _ E) as [rows Hrows]. rewrite Hrows.
    apply wp_bind, wp_get_self, wp_bind, wp_of_option. rewrite Hname.
    apply wp_bind, (wp_append_row_ok _ _ rows); [assumption | assumption |].
    apply wp_logger. simpl. now rewrite PyDictFacts.getitem_setitem.
  - rewrite (getitem_of_not_contains _ _ E). cbn [catches].
    apply wp_bind, wp_add_worksheet_ok; [assumption | assumption |].
    apply wp_bind, (wp_append_row_ok _ _ []);
      [assumption | apply PyDictFacts.getitem_setitem |].
    apply wp_ret, wp_bind, wp_get_self, wp_bind, wp_of_option.
    cbn [self with_service]. rewrite Hname.
    apply wp_bind, (wp_append_row_ok _ _ [header_row]);
      [assumption | apply PyDictFacts.getitem_setitem |].
    apply wp_logger. simpl. now rewrite PyDictFacts.getitem_setitem.
Qed.

(** ** What amounts are accepted *)

(** C7 as stated fails: ["-5"] does not take the invalid-amount branch;
    the split runs on the negative number and the ledger row records it.
    So does an infinite amount. *)
Lemma negative_bill_is_accepted :
  let w := Example.env Example.alice_bob [] in
  let r := handle_update WAITING_FOR_BILL (Text "-5") w in
  let r_inf := handle_update WAITING_FOR_BILL (Text "inf") w in
  exists total_bill individual_share,
    PyFloat.of_string (PyStr.strip "-5") = Some total_bill
    /\ PyFloat.is_nonneg total_bill = false
    /\ fst r = END
    /\ map text (sent (snd r))
       = ["Bill Split:" ++ nl ++ "Alice: $-2.50" ++ nl ++ "Bob: $-2.50" ++ nl
          ++ nl ++ "Total Bill: $-5.00"]
    /\ PyDict.getitem "Meal Costs" (worksheets (service (snd r)))
       = Some [header_row;
               [CStr "2026-11-03"; CStr "Sam"; CNum total_bill;
                CStr "Alice, Bob"; CNum individual_share]]
    /\ PyFloat.of_string (PyStr.strip "inf") = Some (S754_infinity false)
    /\ PyFloat.is_finite (S754_infinity false) = false
    /\ fst r_inf = END
    /\ log (snd r_inf) = [Info_synced (S754_infinity false)].
Proof. do 2 eexists. vm_compute. repeat split. Qed.

(** C7, amended. The bill handler takes the invalid-amount branch exactly
    when [float] rejects the trimmed text.  Any text it accepts, whatever
    the sign or finiteness of its value, is split as it is: the value used
    for the shares, for the message and (when the service answers and the
    purchaser has a name) for the ledger row is the float that [float]
    returned.  The bot's own total-bill field is left as it was. *)
Theorem accepted_bill_is_the_parsed_float (w : Env) (update : string) :
  let r := handle_update WAITING_FOR_BILL (Text update) w in
  let d := current_meal_participants (self w) in
  match PyFloat.of_string (PyStr.strip update) with
  | None =>
      r = (WAITING_FOR_BILL, with_sent (fun l => (l ++ [invalid_amount])%list) w)
  | Some total_bill =>
      d <> [] ->
      let share := share_of total_bill (PyDict.len d) in
      fst r = END
      /\ self (snd r) = self (after_split share w)
      /\ current_meal_total_bill (self (snd r)) = current_meal_total_bill (self w)
      /\ sent (snd r)
         = (sent w ++ [{| text := bill_message (split_dict share d) total_bill;
                          reply_markup := None |}])%list
      /\ forall name,
           faults (service w) = [] ->
           PyDict.getitem "name" (current_meal_purchaser (self w)) = Some name ->
           PyDict.getitem "Meal Costs" (worksheets (service (snd r)))
           = Some (rows_before (service w)
                   ++ [[CStr (strftime_Ymd (current_meal_date (self w)));
                        CStr name;
                        CNum total_bill;
                        CStr (PyStr.join ", " (PyDict.keys (split_dict share d)));
                        CNum share]])%list
  end.
Proof.
  intros r d.
  destruct (PyFloat.of_string (PyStr.strip update)) as [total_bill|] eqn:Hparse.
  - intros Hd share.
    destruct (bill_accepted update total_bill w Hparse Hd)
      as (Hs & Hself & _ & Hsent).
    fold d share r in Hs, Hself, Hsent.
    repeat split; try assumption.
    + now rewrite Hself.
    + intros name Hf Hname. subst r.
      rewrite handle_update_bill, (process_bill_split update total_bill w Hparse Hd).
      fold d share. cbn [snd sent_reply with_sent service].
      destruct (sync_appends_row total_bill share (after_split share w) name)
        as [Hrow _]; [exact Hf | exact Hname |].
      exact Hrow.
  - subst r. now apply handle_update_invalid.
Qed.

Lemma accepted_bill_is_the_parsed_float_witness :
  let w := Example.env Example.alice_bob [] in
  current_meal_participants (self w) <> []
  /\ faults (service w) = []
  /\ PyDict.getitem "name" (current_meal_purchaser (self w)) = Some "Sam"
  /\ fst (handle_update WAITING_FOR_BILL (Text "12.50") w) = END.
Proof.
  intros w.
  assert (Hd : current_meal_participants (self w) <> []) by (simpl; discriminate).
  split; [exact Hd|]. split; [reflexivity|]. split; [reflexivity|].
  exact (proj1 (accepted_bill_is_the_parsed_float w "12.50" Hd)).
Defined.

(** ** Collecting participants *)

(** C4. [/done] with no participant is refused with a message and the
    conversation stays in the collection state; with at least one it
    sends the list of names and moves on to wait for the bill.  The bot
    object is not touched in either case. *)
Theorem done_needs_participants (w : Env) :
  let d := current_meal_participants (self w) in
  let r := handle_update WAITING_FOR_PARTICIPANTS (Command "done") w in
  (d = [] ->
   r = (WAITING_FOR_PARTICIPANTS,
        with_sent (fun l => (l ++ [no_participants])%list) w))
  /\ (d <> [] ->
      r = (WAITING_FOR_BILL,
           with_sent (fun l => (l ++ [participants_listed d])%list) w)).
Proof.
  intros d r. subst d r.
  unfold handle_update, check_update. simpl first_match.
  unfold finish_participants, bind, get_self.
  destruct (current_meal_participants (self w)) as [|kv d]; split;
    intros H; solve [congruence | reflexivity].
Qed.

Lemma done_needs_participants_witness :
  current_meal_participants (self (Example.env [] [])) = []
  /\ handle_update WAITING_FOR_PARTICIPANTS (Command "done") (Example.env [] [])
     = (WAITING_FOR_PARTICIPANTS,
        with_sent (fun l => (l ++ [no_participants])%list) (Example.env [] []))
  /\ current_meal_participants (self (Example.env Example.alice_bob [])) <> []
  /\ fst (handle_update WAITING_FOR_PARTICIPANTS (Command "done")
            (Example.env Example.alice_bob [])) = WAITING_FOR_BILL.
Proof.
  assert (H2 : current_meal_participants (self (Example.env Example.alice_bob []))
               <> []) by (simpl; discriminate).
  split; [reflexivity|].
  split; [exact (proj1 (done_needs_participants (Example.env [] [])) eq_refl)|].
  split; [exact H2|].
  exact (f_equal fst
           (proj2 (done_needs_participants (Example.env Example.alice_bob [])) H2)).
Defined.

(** *** Adding and removing, path by path *)

Lemma collides_In name d :
  collides name d = true
  <-> In (PyStr.lower name) (map PyStr.lower (PyDict.keys d)).
Proof.
  unfold collides. rewrite existsb_exists. split.
  - intros [x [Hx He]]. apply String.eqb_eq in He. now subst.
  - intros H. eexists. split; [exact H | apply String.eqb_refl].
Qed.

Lemma collides_false name d :
  collides name d = false ->
  forall k, In k (PyDict.keys d) -> PyStr.lower k <> PyStr.lower name.
Proof.
  intros H k Hk He.
  assert (Hc : collides name d = true).
  { apply collides_In. rewrite <- He. now apply in_map. }
  congruence.
Qed.

Lemma add_participant_duplicate u w :
  collides (PyStr.strip u) (current_meal_participants (self w)) = true ->
  add_participant u w
  = (Return WAITING_FOR_PARTICIPANTS,
     with_sent (fun l => (l ++ [already_listed (PyStr.strip u)])%list) w).
Proof.
  intros H. unfold add_participant, bind, get_self. rewrite H. reflexivity.
Qed.

Lemma add_participant_fresh u w :
  collides (PyStr.strip u) (current_meal_participants (self w)) = false ->
  add_participant u w
  = (Return WAITING_FOR_PARTICIPANTS,
     with_sent (fun l => (l ++ [added (PyStr.strip u)])%list)
       (with_self
          (set_participants (fun d => (d ++ [(PyStr.strip u, Int 0)])%list)) w)).
Proof.
  intros H. unfold add_participant, bind, get_self. rewrite H.
  assert (Hc : PyDict.contains (PyStr.strip u) (current_meal_participants (self w))
               = false).
  { apply PyDictFacts.contains_not_In. intros Hin.
    exact (collides_false _ _ H _ Hin eq_refl). }
  destruct w as [[] ? ? ? ?].
  unfold modify_self, reply_text, ret, with_sent, with_self, set_participants.
  cbn [self current_meal_participants] in *.
  now rewrite (PyDictFacts.setitem_fresh _ _ _ Hc).
Qed.

Lemma removal_miss u w :
  PyDict.contains (PyStr.strip u) (current_meal_participants (self w)) = false ->
  confirm_participant_removal u w
  = (Return WAITING_FOR_PARTICIPANTS,
     with_sent (fun l => (l ++ [not_found (PyStr.strip u)])%list) w).
Proof.
  intros H. unfold confirm_participant_removal, bind, get_self.
  rewrite H. reflexivity.
Qed.

Lemma removal_hit u w d' :
  PyDict.delitem (PyStr.strip u) (current_meal_participants (self w)) = Some d' ->
  confirm_participant_removal u w
  = (Return WAITING_FOR_PARTICIPANTS,
     with_sent (fun l => (l ++ [removed (PyStr.strip u)])%list)
       (with_self (set_participants (fun _ => d')) w)).
Proof.
  intros H.
  assert (Hc : PyDict.contains (PyStr.strip u) (current_meal_participants (self w))
               = true).
  { destruct (PyDict.contains _ _) eqn:E; [reflexivity|].
    apply PyDictFacts.contains_not_In, PyDictFacts.delitem_miss in E.
    congruence. }
  unfold confirm_participant_removal, bind, get_self.
  rewrite Hc. simpl. rewrite H. reflexivity.
Qed.

Lemma handle_update_add u w :
  handle_update WAITING_FOR_PARTICIPANTS (Text u) w
  = match add_participant u w with
    | (Return s', w') => (s', w')
    | (Raise e, w') =>
        (WAITING_FOR_PARTICIPANTS,
         with_log (fun l => (l ++ [Error_unhandled e])%list) w')
    end.
Proof. reflexivity. Qed.

Lemma handle_update_removal u w :
  handle_update REMOVING_PARTICIPANT (Text u) w
  = match confirm_participant_removal u w with
    | (Return s', w') => (s', w')
    | (Raise e, w') =>
        (REMOVING_PARTICIPANT,
         with_log (fun l => (l ++ [Error_unhandled e])%list) w')
    end.
Proof. reflexivity. Qed.

(** A name that differs from an inserted one only by case is no key. *)
Lemma other_case_is_no_key (a b : string) (v : num) (d : PyDict.dict num) :
  collides a d = false -> PyStr.lower b = PyStr.lower a -> b <> a ->
  PyDict.contains b (d ++ [(a, v)])%list = false.
Proof.
  intros Hc Hl Hne. apply PyDictFacts.contains_not_In.
  rewrite PyDictFacts.keys_app, in_app_iff. simpl.
  intros [Hin | [He | []]]; [|congruence].
  exact (collides_false _ _ Hc _ Hin Hl).
Qed.

(** C3. Insertion compares names without regard to case, removal looks
    the exact name up.  Once ["Alice"] has been inserted: adding ["alice"]
    is refused as a duplicate; submitting ["alice"] for removal reports
    not-found and leaves the bot object as it is; submitting ["Alice"]
    deletes the entry, giving back the participants there were before;
    and both removal attempts return to the collection state. *)
Theorem case_asymmetry (w : Env) :
  collides "Alice" (current_meal_participants (self w)) = false ->
  let d := current_meal_participants (self w) in
  let w1 := snd (handle_update WAITING_FOR_PARTICIPANTS (Text "Alice") w) in
  let r_add := handle_update WAITING_FOR_PARTICIPANTS (Text "alice") w1 in
  let r_miss := handle_update REMOVING_PARTICIPANT (Text "alice") w1 in
  let r_hit := handle_update REMOVING_PARTICIPANT (Text "Alice") w1 in
  current_meal_participants (self w1) = (d ++ [("Alice", Int 0)])%list
  /\ r_add = (WAITING_FOR_PARTICIPANTS,
              with_sent (fun l => (l ++ [already_listed "alice"])%list) w1)
  /\ r_miss = (WAITING_FOR_PARTICIPANTS,
               with_sent (fun l => (l ++ [not_found "alice"])%list) w1)
  /\ fst r_hit = WAITING_FOR_PARTICIPANTS
  /\ current_meal_participants (self (snd r_hit)) = d
  /\ sent (snd r_hit) = (sent w1 ++ [removed "Alice"])%list.
Proof.
  intros Hc d w1 r_add r_miss r_hit.
  assert (Hw1 : w1 = with_sent (fun l => (l ++ [added "Alice"])%list)
                       (with_self
                          (set_participants
                             (fun d => (d ++ [("Alice", Int 0)])%list)) w)).
  { subst w1. rewrite handle_update_add.
    now rewrite (add_participant_fresh "Alice" w Hc). }
  assert (Hd1 : current_meal_participants (self w1)
                = (d ++ [("Alice", Int 0)])%list) by (rewrite Hw1; reflexivity).
  split; [exact Hd1|]. split; [|split].
  - subst r_add. rewrite handle_update_add, add_participant_duplicate;
      [reflexivity|].
    rewrite Hd1. apply collides_In.
    rewrite PyDictFacts.keys_app, map_app, in_app_iff. right. now left.
  - subst r_miss. rewrite handle_update_removal, removal_miss; [reflexivity|].
    rewrite Hd1. apply other_case_is_no_key;
      [exact Hc | reflexivity | discriminate].
  - assert (Hdel : PyDict.delitem (PyStr.strip "Alice")
                     (current_meal_participants (self w1)) = Some d).
    { rewrite Hd1. apply PyDictFacts.delitem_last. intros Hin.
      exact (collides_false _ _ Hc _ Hin eq_refl). }
    subst r_hit. rewrite handle_update_removal, (removal_hit _ _ _ Hdel).
    repeat split.
Qed.

Lemma case_asymmetry_witness :
  let w := Example.env [("Bob", Int 0)] [] in
  let w1 := snd (handle_update WAITING_FOR_PARTICIPANTS (Text "Alice") w) in
  collides "Alice" (current_meal_participants (self w)) = false
  /\ handle_update REMOVING_PARTICIPANT (Text "alice") w1
     = (WAITING_FOR_PARTICIPANTS,
        with_sent (fun l => (l ++ [not_found "alice"])%list) w1)
  /\ current_meal_participants
       (self (snd (handle_update REMOVING_PARTICIPANT (Text "Alice") w1)))
     = [("Bob", Int 0)].
Proof.
  intros w w1.
  destruct (case_asymmetry w eq_refl) as (_ & _ & Hmiss & _ & Hhit & _).
  exact (conj eq_refl (conj Hmiss Hhit)).
Defined.

(** C10. A removal attempt touches at most the entry of the exact name.
    On a hit that entry is cut out of the participants and the entries
    before and after it stay, in order, with their shares; the name is
    then gone and the map has one entry fewer.  On a miss the map is the
    same.  Every other name reads the same share as before, the purchaser
    record, the total bill and the date are untouched, and the
    conversation is back in the collection state. *)
Theorem removal_touches_one_entry (w : Env) (update : string) :
  PyDict.wf (current_meal_participants (self w)) ->
  let name := PyStr.strip update in
  let d := current_meal_participants (self w) in
  let r := handle_update REMOVING_PARTICIPANT (Text update) w in
  let d' := current_meal_participants (self (snd r)) in
  fst r = WAITING_FOR_PARTICIPANTS
  /\ current_meal_purchaser (self (snd r)) = current_meal_purchaser (self w)
  /\ current_meal_total_bill (self (snd r)) = current_meal_total_bill (self w)
  /\ current_meal_date (self (snd r)) = current_meal_date (self w)
  /\ (In name (PyDict.keys d) ->
      (exists l1 v l2, d = (l1 ++ (name, v) :: l2)%list /\ d' = (l1 ++ l2)%list)
      /\ ~ In name (PyDict.keys d')
      /\ S (PyDict.len d') = PyDict.len d)
  /\ (~ In name (PyDict.keys d) -> self (snd r) = self w)
  /\ (forall k, k <> name -> PyDict.getitem k d' = PyDict.getitem k d).
Proof.
  intros Hwf name d r d'. subst r d'. rewrite handle_update_removal.
  destruct (PyDict.contains name d) eqn:Hc.
  - apply PyDictFacts.contains_In in Hc.
    destruct (PyDictFacts.delitem_hit _ _ Hc) as (l1 & v & l2 & Hd & Hl1 & Hdel).
    fold name in Hdel.
    rewrite (removal_hit update w _ Hdel). cbn.
    assert (Hl : ~ In name (PyDict.keys (l1 ++ l2)%list)).
    { unfold PyDict.wf in Hwf. fold d in Hwf. rewrite Hd in Hwf.
      rewrite PyDictFacts.keys_app in *. simpl in Hwf.
      now apply NoDup_remove_2 in Hwf. }
    do 4 (split; [reflexivity|]). split; [|split].
    + intros _. split; [|split].
      * exists l1, v, l2. split; [exact Hd | reflexivity].
      * exact Hl.
      * fold d. rewrite Hd. unfold PyDict.len.
        rewrite !length_app. simpl. lia.
    + intros Hn. contradiction.
    + intros k Hk. fold d. rewrite Hd.
      symmetry. now apply PyDictFacts.getitem_app_other.
  - rewrite (removal_miss update w Hc). cbn.
    apply PyDictFacts.contains_not_In in Hc.
    do 4 (split; [reflexivity|]). split; [|split].
    + intros Hin. contradiction.
    + reflexivity.
    + reflexivity.
Qed.

Lemma removal_touches_one_entry_witness :
  let w := Example.env Example.alice_bob [] in
  PyDict.wf (current_meal_participants (self w))
  /\ In (PyStr.strip " Alice ") (PyDict.keys (current_meal_participants (self w)))
  /\ ~ In (PyStr.strip "alice") (PyDict.keys (current_meal_participants (self w)))
  /\ S (PyDict.len
          (current_meal_participants
             (self (snd (handle_update REMOVING_PARTICIPANT (Text " Alice ") w)))))
     = PyDict.len (current_meal_participants (self w))
  /\ self (snd (handle_update REMOVING_PARTICIPANT (Text "alice") w)) = self w.
Proof.
  intros w.
  assert (Hin : In (PyStr.strip " Alice ")
                  (PyDict.keys (current_meal_participants (self w))))
    by (simpl; auto).
  assert (Hout : ~ In (PyStr.strip "alice")
                   (PyDict.keys (current_meal_participants (self w))))
    by (simpl; intuition discriminate).
  destruct (removal_touches_one_entry w " Alice " wf_alice_bob)
    as (_ & _ & _ & _ & Hhit & _).
  destruct (removal_touches_one_entry w "alice" wf_alice_bob)
    as (_ & _ & _ & _ & _ & Hmiss & _).
  exact (conj wf_alice_bob
           (conj Hin (conj Hout
              (conj (proj2 (proj2 (Hhit Hin))) (Hmiss Hout))))).
Defined.

(** ** Cancelling and starting over *)

(** C8 as stated fails twice.  Cancelling while participants are being
    collected does end the conversation, but the participants are still in
    the bot object afterwards; and with no conversation under way the
    command has no handler, so nothing is sent. *)
Lemma cancel_keeps_the_data :
  let w := Example.env Example.alice_bob [] in
  let r := handle_update WAITING_FOR_PARTICIPANTS (Command "cancel") w in
  fst r = END
  /\ sent (snd r) = [cancelled]
  /\ current_meal_participants (self (snd r)) = [("Alice", Int 0); ("Bob", Int 0)]
  /\ handle_update END (Command "cancel") w = (END, w)
  /\ sent (snd (handle_update END (Command "cancel") w)) = [].
Proof. repeat split. Qed.

(** C8, amended.  In every state of a conversation under way the cancel
    command sends the acknowledgment and ends the conversation, and it
    changes nothing else: the session data stays in the bot object.  With
    no conversation under way the command is dropped.  The data is
    discarded by the next [start_meal], which whatever was there leaves
    an empty participant map, a zero total bill and a purchaser record
    holding only an empty name, and asks for the purchaser. *)
Theorem cancel_ends_and_start_meal_resets (s : state) (w : Env) :
  let r := handle_update s (Command "cancel") w in
  let r' := handle_update END (Command "start_meal") (snd r) in
  (s <> END ->
   r = (END, with_sent (fun l => (l ++ [cancelled])%list) w))
  /\ (s = END -> r = (END, w))
  /\ fst r = END
  /\ self (snd r) = self w
  /\ fst r' = WAITING_FOR_PURCHASER_INFO
  /\ self (snd r') = fresh_meal (self w) (clock w)
  /\ current_meal_participants (self (snd r')) = []
  /\ current_meal_total_bill (self (snd r')) = Int 0
  /\ current_meal_purchaser (self (snd r')) = [("name", EmptyString)].
Proof.
  intros r r'. subst r r'.
  destruct s; (split; [intros H; try congruence; reflexivity|]);
    (split; [intros H; try congruence; reflexivity|]);
    repeat (split; [reflexivity|]); reflexivity.
Qed.

Lemma cancel_ends_and_start_meal_resets_witness :
  let w := Example.env Example.alice_bob [] in
  WAITING_FOR_BILL <> END
  /\ handle_update WAITING_FOR_BILL (Command "cancel") w
     = (END, with_sent (fun l => (l ++ [cancelled])%list) w)
  /\ handle_update END (Command "cancel") w = (END, w).
Proof.
  intros w.
  assert (H : WAITING_FOR_BILL <> END) by discriminate.
  exact (conj H
           (conj (proj1 (cancel_ends_and_start_meal_resets WAITING_FOR_BILL w) H)
              (proj1 (proj2 (cancel_ends_and_start_meal_resets END w)) eq_refl))).
Defined.

(** ** What the handlers can do to the participants *)

Lemma first_match_In hs u h :
  first_match hs u = Some h -> In h (map snd hs).
Proof.
  induction hs as [|[f h'] hs IH]; simpl; [discriminate|].
  destruct (matches f u); [intros [= ->]; now left | auto].
Qed.

Lemma check_update_In s u h : check_update s u = Some h -> In h handlers.
Proof.
  unfold check_update.
  assert (He : first_match entry_points u = Some h -> In h handlers).
  { intros H. apply first_match_In in H. simpl in H. unfold handlers. simpl.
    intuition. }
  assert (Hf : first_match fallbacks u = Some h -> In h handlers).
  { intros H. apply first_match_In in H. simpl in H. unfold handlers. simpl.
    intuition. }
  destruct s; try exact He;
    (destruct (first_match (states _) u) as [h'|] eqn:E; [|exact Hf]);
    intros [= ->]; apply first_match_In in E; simpl in E;
    unfold handlers; simpl; intuition.
Qed.

Lemma collect_purchaser_name_eq u w :
  collect_purchaser_name u w
  = (Return WAITING_FOR_PARTICIPANTS,
     with_sent
       (fun l =>
          (l ++ [{| text :=
                      "Thanks, " ++ PyStr.strip u ++ ". "
                      ++ "Purchaser information recorded. Now, please enter the names of all participants, "
                      ++ "one name per message. Use /remove to remove a participant, "
                      ++ "/list to see current participants, or /done when finished.";
                    reply_markup := None |}])%list)
       (with_self (set_purchaser (PyDict.setitem "name" (PyStr.strip u))) w)).
Proof.
  unfold collect_purchaser_name, bind, modify_self, get_self.
  cbn [with_self self set_purchaser current_meal_purchaser].
  rewrite PyDictFacts.getitem_setitem. reflexivity.
Qed.

Lemma handler_step h u w :
  In h handlers ->
  participants_step (current_meal_participants (self w))
    (current_meal_participants (self (snd (h u w)))).
Proof.
  unfold handlers. simpl.
  intros [<-|[<-|[<-|[<-|[<-|[<-|[<-|[<-|[<-|[<-|[]]]]]]]]]]].
  - apply step_same.
  - apply step_clear.
  - rewrite collect_purchaser_name_eq. apply step_same.
  - destruct (collides (PyStr.strip u) (current_meal_participants (self w))) eqn:E.
    + rewrite (add_participant_duplicate u w E). apply step_same.
    + rewrite (add_participant_fresh u w E). now apply step_add.
  - unfold remove_participant, bind, get_self.
    destruct (current_meal_participants (self w)) eqn:E; simpl; rewrite E;
      apply step_same.
  - unfold list_participants, bind, get_self.
    destruct (current_meal_participants (self w)) eqn:E; simpl; rewrite E;
      apply step_same.
  - unfold finish_participants, bind, get_self.
    destruct (current_meal_participants (self w)) eqn:E; simpl; rewrite E;
      apply step_same.
  - destruct (PyDict.contains (PyStr.strip u) (current_meal_participants (self w)))
      eqn:E.
    + apply PyDictFacts.contains_In in E.
      destruct (PyDictFacts.delitem_hit _ _ E) as (l1 & v & l2 & Hd & _ & Hdel).
      rewrite (removal_hit u w _ Hdel). simpl.
      exact (step_remove _ l1 (PyStr.strip u) v l2 Hd).
    + rewrite (removal_miss u w E). apply step_same.
  - destruct (PyFloat.of_string (PyStr.strip u)) as [v|] eqn:Hp.
    + destruct (current_meal_participants (self w)) as [|kv d] eqn:Hd.
      * rewrite (process_bill_nobody u v w Hp Hd). simpl. rewrite Hd.
        apply step_same.
      * assert (Hne : current_meal_participants (self w) <> [])
          by (rewrite Hd; discriminate).
        rewrite (process_bill_split u v w Hp Hne). cbn [snd].
        destruct (sync_to_google_sheets_spec v
                    (share_of v (PyDict.len (current_meal_participants (self w))))
                    (after_split
                       (share_of v (PyDict.len (current_meal_participants (self w))))
                       w))
          as (w' & Hs & Hself & _).
        rewrite Hs. cbn [snd sent_reply with_sent self]. rewrite Hself.
        cbn [after_split with_self self set_participants
             current_meal_participants].
        rewrite <- Hd. apply step_split.
    + rewrite (process_bill_invalid u w Hp). apply step_same.
  - apply step_same.
Qed.

Lemma handle_update_step s u w :
  participants_step (current_meal_participants (self w))
    (current_meal_participants (self (snd (handle_update s u w)))).
Proof.
  unfold handle_update.
  destruct (check_update s u) as [h|] eqn:E; [|apply step_same].
  pose proof (handler_step h (message_text u) w (check_update_In _ _ _ E)) as H.
  destruct (h (message_text u) w) as [[s'|e] w']; exact H.
Qed.

Lemma ci_unique_step d d' : participants_step d d' -> ci_unique d -> ci_unique d'.
Proof.
  unfold ci_unique. intros [| |name Hc|l1 k v l2 Hd|share] Hu.
  - exact Hu.
  - constructor.
  - rewrite PyDictFacts.keys_app, map_app. simpl.
    apply NoDup_app; [exact Hu | repeat constructor; intros [] |].
    intros x Hx [<-|[]]. apply collides_In in Hx. congruence.
  - subst d. rewrite PyDictFacts.keys_app, map_app in *. simpl in Hu.
    now apply NoDup_remove_1 in Hu.
  - unfold split_dict.
    rewrite PyDictFacts.keys_fold_setitem; [exact Hu | apply incl_refl].
Qed.

Lemma run_peers_ci_unique us :
  forall c w,
    ci_unique (current_meal_participants (self w)) ->
    ci_unique (current_meal_participants (self (snd (run_peers us c w)))).
Proof.
  induction us as [|[p u] us IH]; intros c w H; simpl; [exact H|].
  pose proof (handle_update_step (c p) u w) as Hs.
  destruct (handle_update (c p) u w) as [s' w']. apply IH.
  exact (ci_unique_step _ _ Hs H).
Qed.

Lemma ci_unique_wf d : ci_unique d -> PyDict.wf d.
Proof. unfold ci_unique, PyDict.wf. apply NoDup_map_inv. Qed.

(** The participant map of a running bot is a well-formed dict, which is
    what the statements about the split and the removal assume. *)
Lemma running_bot_wf us telegram_token credentials_path spreadsheet now svc :
  PyDict.wf
    (current_meal_participants
       (self (snd (run_peers us no_conversations
                     (boot telegram_token credentials_path spreadsheet now svc))))).
Proof. apply ci_unique_wf, run_peers_ci_unique. constructor. Qed.

(** C2. Adding a name that equals, case ignored, a name already in the
    map sends the duplicate rejection, stays in the collection state and
    leaves the bot object, hence the map, as it is.  And so the map never
    holds two names that are equal when case is ignored: every update of
    every conversation keeps that property, and the bot starts with it. *)
Theorem duplicate_names_are_rejected
    (w : Env) (update : string) (us : list (peer * Update)) (c : conversations) :
  let d := current_meal_participants (self w) in
  (forall k,
      In k (PyDict.keys d) ->
      PyStr.lower k = PyStr.lower (PyStr.strip update) ->
      handle_update WAITING_FOR_PARTICIPANTS (Text update) w
      = (WAITING_FOR_PARTICIPANTS,
         with_sent
           (fun l => (l ++ [already_listed (PyStr.strip update)])%list) w))
  /\ (ci_unique d ->
      ci_unique (current_meal_participants (self (snd (run_peers us c w)))))
  /\ (forall telegram_token credentials_path spreadsheet now svc,
        ci_unique
          (current_meal_participants
             (self (snd (run_peers us no_conversations
                           (boot telegram_token credentials_path spreadsheet now svc)))))).
Proof.
  intros d. split; [|split].
  - intros k Hk Hl. rewrite handle_update_add, add_participant_duplicate;
      [reflexivity|].
    apply collides_In. rewrite <- Hl. now apply in_map.
  - apply run_peers_ci_unique.
  - intros. apply run_peers_ci_unique. constructor.
Qed.

Lemma duplicate_names_are_rejected_witness :
  let w := Example.env Example.alice_bob [] in
  In "Alice" (PyDict.keys (current_meal_participants (self w)))
  /\ PyStr.lower "Alice" = PyStr.lower (PyStr.strip " aLICE ")
  /\ handle_update WAITING_FOR_PARTICIPANTS (Text " aLICE ") w
     = (WAITING_FOR_PARTICIPANTS,
        with_sent (fun l => (l ++ [already_listed "aLICE"])%list) w)
  /\ ci_unique (current_meal_participants (self w))
  /\ ci_unique
       (current_meal_participants
          (self (snd (run_peers [(1%nat, Text "Carol"); (2%nat, Text "carol")]
                        (fun _ => WAITING_FOR_PARTICIPANTS) w)))).
Proof.
  intros w.
  assert (Hin : In "Alice" (PyDict.keys (current_meal_participants (self w))))
    by (simpl; auto).
  assert (Hu : ci_unique (current_meal_participants (self w))).
  { unfold ci_unique. simpl. repeat constructor; simpl; intuition discriminate. }
  pose proof (duplicate_names_are_rejected w " aLICE "
                [(1%nat, Text "Carol"); (2%nat, Text "carol")]
                (fun _ => WAITING_FOR_PARTICIPANTS)) as (H1 & H2 & _).
  exact (conj Hin (conj eq_refl (conj (H1 "Alice" Hin eq_refl)
                                   (conj Hu (H2 Hu))))).
Defined.

(** ** Division by zero *)

(** C9 as stated fails: the conversations of two users share the one bot
    object.  The first user reaches the bill-awaiting state with one
    participant, the second starts a meal, which clears the map, and the
    bill of the first is divided by zero: [ZeroDivisionError] leaves the
    handler. *)
Lemma second_user_empties_the_map :
  let us := [(1%nat, Command "start_meal"); (1%nat, Text "Sam");
             (1%nat, Text "Alice"); (1%nat, Command "done");
             (2%nat, Command "start_meal")] in
  let r := run_peers us no_conversations
             (boot "token" "google_credential.json" "sheet" Example.today
                {| worksheets := []; faults := [] |}) in
  fst r 1%nat = WAITING_FOR_BILL
  /\ current_meal_participants (self (snd r)) = []
  /\ process_bill "100" (snd r)
     = (Raise (ZeroDivisionError "float division by zero"), snd r)
  /\ log (snd (handle_update (fst r 1%nat) (Text "100") (snd r)))
     = [Error_unhandled (ZeroDivisionError "float division by zero")]
  /\ divided_by_zero (snd (run_peers (us ++ [(1%nat, Text "100")]) no_conversations
                             (boot "token" "google_credential.json" "sheet" Example.today
                                {| worksheets := []; faults := [] |}))) = true.
Proof. vm_compute. repeat split. Qed.

Lemma handle_update_text_safe s t w :
  bill_ready s w -> divided_by_zero w = false ->
  bill_ready (fst (handle_update s (Text t) w)) (snd (handle_update s (Text t) w))
  /\ divided_by_zero (snd (handle_update s (Text t) w)) = false.
Proof.
  intros Hr Hz. destruct s.
  - rewrite handle_update_add.
    destruct (collides (PyStr.strip t) (current_meal_participants (self w))) eqn:E;
      [rewrite (add_participant_duplicate t w E)
      | rewrite (add_participant_fresh t w E)];
      (split; [discriminate | exact Hz]).
  - specialize (Hr eq_refl). rewrite handle_update_bill.
    destruct (PyFloat.of_string (PyStr.strip t)) as [v|] eqn:Hp.
    + rewrite (process_bill_split t v w Hp Hr).
      split; [discriminate|].
      set (share := share_of v _).
      destruct (sync_to_google_sheets_spec v share (after_split share w))
        as (w' & Hs & _ & _ & _ & Hlog).
      rewrite Hs. unfold divided_by_zero in *. cbn [snd sent_reply with_sent log].
      destruct (fst (sync_body v share (after_split share w)));
        rewrite Hlog, existsb_app; cbn [after_split with_self log];
        rewrite Hz; reflexivity.
    + rewrite (process_bill_invalid t w Hp).
      split; [intros _; exact Hr | exact Hz].
  - rewrite handle_update_removal.
    destruct (PyDict.contains (PyStr.strip t) (current_meal_participants (self w)))
      eqn:E.
    + apply PyDictFacts.contains_In in E.
      destruct (PyDictFacts.delitem_hit _ _ E) as (l1 & v & l2 & _ & _ & Hdel).
      rewrite (removal_hit t w _ Hdel). split; [discriminate | exact Hz].
    + rewrite (removal_miss t w E). split; [discriminate | exact Hz].
  - unfold handle_update. cbn [check_update states first_match matches message_text].
    rewrite collect_purchaser_name_eq. split; [discriminate | exact Hz].
  - split; [discriminate | exact Hz].
Qed.

Lemma handle_update_command_safe s name w :
  bill_ready s w -> divided_by_zero w = false ->
  bill_ready (fst (handle_update s (Command name) w))
    (snd (handle_update s (Command name) w))
  /\ divided_by_zero (snd (handle_update s (Command name) w)) = false.
Proof.
  intros Hr Hz. unfold handle_update, check_update.
  destruct s; cbn [states entry_points fallbacks first_match matches];
    repeat match goal with
           | |- context [String.eqb ?a name] => destruct (String.eqb a name)
           end;
    try (split; [assumption || discriminate | exact Hz]);
    unfold remove_participant, list_participants, finish_participants, cancel,
      start, start_meal, bind, get_self;
    try (destruct (current_meal_participants (self w)) eqn:E);
    cbn; unfold bill_ready;
    try (split; [discriminate | exact Hz]);
    try (split; [intros _; cbn; rewrite E; discriminate | exact Hz]).
Qed.

Lemma handle_update_safe s u w :
  bill_ready s w -> divided_by_zero w = false ->
  bill_ready (fst (handle_update s u w)) (snd (handle_update s u w))
  /\ divided_by_zero (snd (handle_update s u w)) = false.
Proof.
  destruct u; [apply handle_update_command_safe | apply handle_update_text_safe].
Qed.

Lemma run_safe us :
  forall s w,
    bill_ready s w -> divided_by_zero w = false ->
    bill_ready (fst (run us s w)) (snd (run us s w))
    /\ divided_by_zero (snd (run us s w)) = false.
Proof.
  induction us as [|u us IH]; intros s w Hr Hz; simpl; [auto|].
  destruct (handle_update_safe s u w Hr Hz) as [Hr' Hz'].
  destruct (handle_update s u w) as [s' w']. now apply IH.
Qed.

(** While one user alone talks to the bot, the conversation handler is
    the single-conversation run. *)
Lemma run_peers_single (p : peer) us :
  Forall (fun pu => fst pu = p) us ->
  forall c w,
    fst (run_peers us c w) p = fst (run (map snd us) (c p) w)
    /\ snd (run_peers us c w) = snd (run (map snd us) (c p) w).
Proof.
  induction 1 as [|[q u] us Hq _ IH]; intros c w; simpl; [auto|].
  simpl in Hq. subst q.
  destruct (handle_update (c p) u w) as [s' w'].
  specialize (IH (set_conversation p s' c) w').
  unfold set_conversation at 2 4 in IH. now rewrite Nat.eqb_refl in IH.
Qed.

Lemma process_bill_ready t w :
  current_meal_participants (self w) <> [] ->
  exists s, fst (process_bill t w) = Return s.
Proof.
  intros Hd. destruct (PyFloat.of_string (PyStr.strip t)) as [v|] eqn:Hp.
  - rewrite (process_bill_split t v w Hp Hd). now exists END.
  - rewrite (process_bill_invalid t w Hp). now exists WAITING_FOR_BILL.
Qed.

(** C9, amended.  As long as the updates all come from one conversation
    (one chat and user), the bill-awaiting state is only ever held with a
    non-empty participant map, so there the bill handler returns and
    never divides by zero, and no division by zero is ever logged.  (With
    a second conversation on the same bot object this fails, as shown
    above.) *)
Theorem one_conversation_never_divides_by_zero
    (p : peer) (us : list (peer * Update)) (c : conversations) (w : Env) :
  Forall (fun pu => fst pu = p) us ->
  bill_ready (c p) w ->
  divided_by_zero w = false ->
  let r := run_peers us c w in
  divided_by_zero (snd r) = false
  /\ (fst r p = WAITING_FOR_BILL ->
      current_meal_participants (self (snd r)) <> []
      /\ forall t, exists s, fst (process_bill t (snd r)) = Return s).
Proof.
  intros Hp Hr Hz r. subst r.
  destruct (run_peers_single p us Hp c w) as [H1 H2].
  destruct (run_safe (map snd us) (c p) w Hr Hz) as [Hr' Hz'].
  rewrite H1, H2. split; [exact Hz'|].
  intros Hs. split; [exact (Hr' Hs)|].
  intros t. apply process_bill_ready. exact (Hr' Hs).
Qed.

Lemma one_conversation_never_divides_by_zero_witness :
  let us := [(1%nat, Command "start_meal"); (1%nat, Text "Sam");
             (1%nat, Command "done"); (1%nat, Text "Alice");
             (1%nat, Command "remove"); (1%nat, Text "Alice");
             (1%nat, Command "done"); (1%nat, Text "Bob");
             (1%nat, Command "done"); (1%nat, Text "100")] in
  let w := boot "token" "google_credential.json" "sheet" Example.today {| worksheets := []; faults := [] |} in
  Forall (fun pu => fst pu = 1%nat) us
  /\ bill_ready (no_conversations 1%nat) w
  /\ divided_by_zero w = false
  /\ divided_by_zero (snd (run_peers us no_conversations w)) = false.
Proof.
  intros us w.
  assert (H1 : Forall (fun pu => fst pu = 1%nat) us) by (repeat constructor).
  assert (H2 : bill_ready (no_conversations 1%nat) w) by (intros H; discriminate H).
  exact (conj H1 (conj H2 (conj eq_refl
           (proj1 (one_conversation_never_divides_by_zero
                     1%nat us no_conversations w H1 H2 eq_refl))))).
Defined.

(** * Further properties *)

(** ** The keyboard of [remove_participant] *)

Lemma list_ind3 {A} (P : list A -> Prop) :
  P [] -> (forall a, P [a]) -> (forall a b, P [a; b]) ->
  (forall a b c l, P l -> P (a :: b :: c :: l)) ->
  forall l, P l.
Proof.
  intros H0 H1 H2 H3.
  fix IH 1.
  intros [|a [|b [|c l]]]; [exact H0 | apply H1 | apply H2 | apply H3, IH].
Qed.

Lemma range_by_3_step (n : nat) :
  range_by (n + 3) 3 = 0%nat :: map (fun i => (i + 3)%nat) (range_by n 3).
Proof.
  unfold range_by.
  replace ((n + 3 + 3 - 1) / 3)%nat with (S ((n + 3 - 1) / 3)).
  - rewrite <- cons_seq, <- seq_shift. simpl map. f_equal.
    rewrite !map_map. apply map_ext. intros k. lia.
  - replace (n + 3 + 3 - 1)%nat with (n + 3 - 1 + 1 * 3)%nat by lia.
    rewrite Nat.div_add by lia. lia.
Qed.

(** The structural definition of the rows is the slicing comprehension
    of the source. *)
Lemma rows_of_3_slices (l : list string) : rows_of_3 l = keyboard_slices l.
Proof.
  induction l as [|a|a b|a b c l IH] using list_ind3; try reflexivity.
  unfold keyboard_slices in *. cbn [rows_of_3 List.length].
  replace (S (S (S (List.length l)))) with (List.length l + 3)%nat by lia.
  rewrite range_by_3_step. cbn [map]. f_equal.
  rewrite IH, map_map. apply map_ext. intros i. unfold slice.
  replace (i + 3 + 3 - (i + 3))%nat with (i + 3 - i)%nat by lia.
  replace (skipn (i + 3) (a :: b :: c :: l)) with (skipn i l);
    [reflexivity|].
  replace (i + 3)%nat with (S (S (S i))) by lia. reflexivity.
Qed.

(** X1. [/remove] while participants are collected: with an empty map
    the empty-list message and the same state; otherwise the selection
    keyboard whose rows are the slices [l[i:i+3]] of the names, and the
    state that waits for the name to remove.  The bot object is not
    touched. *)
Theorem remove_shows_keyboard (w : Env) :
  let d := current_meal_participants (self w) in
  let r := handle_update WAITING_FOR_PARTICIPANTS (Command "remove") w in
  (d = [] ->
   r = (WAITING_FOR_PARTICIPANTS,
        sent_reply "No participants to remove. Add participants first." None w))
  /\ (d <> [] ->
      r = (REMOVING_PARTICIPANT,
           sent_reply "Select a participant to remove:"
             (Some (ReplyKeyboardMarkup (keyboard_slices (PyDict.keys d)))) w)).
Proof.
  intros d r. subst d r.
  unfold handle_update, check_update. simpl first_match.
  unfold remove_participant, bind, get_self.
  rewrite <- rows_of_3_slices.
  destruct (current_meal_participants (self w)) as [|kv d]; split;
    intros H; solve [congruence | reflexivity].
Qed.

Lemma remove_shows_keyboard_witness :
  let w := Example.env Example.alice_bob [] in
  current_meal_participants (self w) <> []
  /\ handle_update WAITING_FOR_PARTICIPANTS (Command "remove") w
     = (REMOVING_PARTICIPANT,
        sent_reply "Select a participant to remove:"
          (Some (ReplyKeyboardMarkup [["Alice"; "Bob"]])) w)
  /\ fst (handle_update WAITING_FOR_PARTICIPANTS (Command "remove")
            (Example.env [] [])) = WAITING_FOR_PARTICIPANTS.
Proof.
  intros w.
  assert (H : current_meal_participants (self w) <> []) by (simpl; discriminate).
  exact (conj H
           (conj (proj2 (remove_shows_keyboard w) H)
              (f_equal fst (proj1 (remove_shows_keyboard (Example.env [] []))
                              eq_refl)))).
Defined.

(** X2. The keyboard shows every name once and in insertion order: its
    rows put end to end are the list of names; every row holds between
    one and three names, and four names or more never share a row; the
    number of rows is the number of names divided by three, rounded up. *)
Theorem keyboard_rows_partition (l : list string) :
  List.concat (keyboard_slices l) = l
  /\ Forall (fun row => (1 <= List.length row <= 3)%nat) (keyboard_slices l)
  /\ List.length (keyboard_slices l) = ((List.length l + 2) / 3)%nat.
Proof.
  rewrite <- rows_of_3_slices.
  induction l as [|a|a b|a b c l IH] using list_ind3.
  - repeat split. constructor.
  - repeat split. repeat constructor.
  - repeat split. repeat constructor.
  - destruct IH as (H1 & H2 & H3). cbn [rows_of_3 List.concat app List.length].
    rewrite H1, H3. split; [reflexivity|]. split.
    + constructor; [simpl; lia | exact H2].
    + replace (S (S (S (List.length l))) + 2)%nat
        with (List.length l + 2 + 1 * 3)%nat by lia.
      rewrite Nat.div_add by lia. lia.
Qed.

(** ** What the conversation handler accepts *)

Ltac case_commands name :=
  repeat match goal with
         | |- context [String.eqb ?a name] =>
             destruct (String.eqb_spec a name)
         end.

(** X3. The entry points are tried only while no conversation is under
    way: there [/start] sends the welcome and starts nothing, while in
    every state of a conversation [/start] and [/start_meal] are dropped,
    so a meal under way is not reset by a second [/start_meal]. *)
Theorem entry_points_only_outside (s : state) (w : Env) :
  handle_update END (Command "start") w
  = (END,
     sent_reply
       ("Welcome to Meal Cost Distribution Bot! "
        ++ "Use /start_meal to begin tracking a new meal's participants.")
       None w)
  /\ (s <> END ->
      handle_update s (Command "start") w = (s, w)
      /\ handle_update s (Command "start_meal") w = (s, w)).
Proof.
  split; [reflexivity|].
  intros Hs. destruct s; try congruence; split; reflexivity.
Qed.

Lemma entry_points_only_outside_witness :
  let w := Example.env Example.alice_bob [] in
  WAITING_FOR_PARTICIPANTS <> END
  /\ handle_update WAITING_FOR_PARTICIPANTS (Command "start_meal") w
     = (WAITING_FOR_PARTICIPANTS, w).
Proof.
  intros w.
  assert (H : WAITING_FOR_PARTICIPANTS <> END) by discriminate.
  exact (conj H
           (proj2 (proj2 (entry_points_only_outside WAITING_FOR_PARTICIPANTS w) H))).
Defined.



(** [/list] while participants are collected, branch by branch. *)
Lemma handle_update_list (w : Env) :
  let d := current_meal_participants (self w) in
  let r := handle_update WAITING_FOR_PARTICIPANTS (Command "list") w in
  (d = [] ->
   r = (WAITING_FOR_PARTICIPANTS, sent_reply "No participants added yet." None w))
  /\ (d <> [] ->
      r = (WAITING_FOR_PARTICIPANTS,
           sent_reply
             ("Current participants:" ++ nl ++ PyStr.join nl (PyDict.keys d))
             None w)).
Proof.
  intros d r. subst d r.
  unfold handle_update, check_update. simpl first_match.
  unfold list_participants, bind, get_self.
  destruct (current_meal_participants (self w)) as [|kv d]; split;
    intros H; solve [congruence | reflexivity].
Qed.



(** ** The purchaser *)

Lemma getitem_setitem_other {V} (k k' : string) (v : V) (d : PyDict.dict V) :
  k' <> k -> PyDict.getitem k' (PyDict.setitem k v d) = PyDict.getitem k' d.
Proof.
  intros Hne. unfold PyDict.setitem. destruct (PyDict.contains k d).
  - induction d as [|[k1 v1] d IH]; simpl; [reflexivity|].
    destruct (String.eqb_spec k k1) as [->|H1]; simpl.
    + destruct (String.eqb_spec k' k1); [congruence | reflexivity].
    + now rewrite IH.
  - induction d as [|[k1 v1] d IH]; simpl.
    + destruct (String.eqb_spec k' k); [congruence | reflexivity].
    + now rewrite IH.
Qed.

(** X7. Any text sent while the bot waits for the purchaser is taken as
    the name: the handler never raises, stores the trimmed text under
    ["name"] (also when it is empty), keeps the other entries of the
    purchaser record, the participants, the total bill and the date,
    thanks the purchaser and goes on to collect the participants. *)
Theorem purchaser_name_is_recorded (w : Env) (update : string) :
  let r := handle_update WAITING_FOR_PURCHASER_INFO (Text update) w in
  let b := self w in
  let b' := self (snd r) in
  fst r = WAITING_FOR_PARTICIPANTS
  /\ PyDict.getitem "name" (current_meal_purchaser b')
     = Some (PyStr.strip update)
  /\ (forall k, k <> "name" ->
                PyDict.getitem k (current_meal_purchaser b')
                = PyDict.getitem k (current_meal_purchaser b))
  /\ current_meal_participants b' = current_meal_participants b
  /\ current_meal_total_bill b' = current_meal_total_bill b
  /\ current_meal_date b' = current_meal_date b
  /\ sent (snd r) = (sent w ++ [thanks (PyStr.strip update)])%list
  /\ log (snd r) = log w.
Proof.
  intros r b b'. subst r b b'. unfold handle_update.
  cbn [check_update states first_match matches message_text].
  rewrite collect_purchaser_name_eq.
  cbn [fst snd with_sent with_self self set_purchaser current_meal_purchaser
       current_meal_participants current_meal_total_bill current_meal_date
       sent log].
  split; [reflexivity|]. split; [apply PyDictFacts.getitem_setitem|].
  split; [intros k Hk; now apply getitem_setitem_other|].
  repeat (split; [reflexivity|]). reflexivity.
Qed.

(** What one handler call does to the rest of the bot object: nothing,
    the reset of [start_meal], or the new name. *)
Lemma handler_record_step h u w :
  In h handlers ->
  let b := self w in
  let b' := self (snd (h u w)) in
  (current_meal_purchaser b' = current_meal_purchaser b
   /\ current_meal_total_bill b' = current_meal_total_bill b
   /\ current_meal_date b' = current_meal_date b)
  \/ (current_meal_purchaser b' = [("name", EmptyString)]
      /\ current_meal_total_bill b' = Int 0
      /\ current_meal_date b' = clock w)
  \/ (current_meal_purchaser b'
      = PyDict.setitem "name" (PyStr.strip u) (current_meal_purchaser b)
      /\ current_meal_total_bill b' = current_meal_total_bill b
      /\ current_meal_date b' = current_meal_date b).
Proof.
  unfold handlers. simpl.
  intros [<-|[<-|[<-|[<-|[<-|[<-|[<-|[<-|[<-|[<-|[]]]]]]]]]]].
  - left. repeat split.
  - right. left. repeat split.
  - right. right. rewrite collect_purchaser_name_eq. repeat split.
  - left.
    destruct (collides (PyStr.strip u) (current_meal_participants (self w))) eqn:E;
      [rewrite (add_participant_duplicate u w E)
      | rewrite (add_participant_fresh u w E)]; repeat split.
  - left. unfold remove_participant, bind, get_self.
    destruct (current_meal_participants (self w)); repeat split.
  - left. unfold list_participants, bind, get_self.
    destruct (current_meal_participants (self w)); repeat split.
  - left. unfold finish_participants, bind, get_self.
    destruct (current_meal_participants (self w)); repeat split.
  - left.
    destruct (PyDict.contains (PyStr.strip u) (current_meal_participants (self w)))
      eqn:E.
    + apply PyDictFacts.contains_In in E.
      destruct (PyDictFacts.delitem_hit _ _ E) as (l1 & v & l2 & _ & _ & Hdel).
      rewrite (removal_hit u w _ Hdel). repeat split.
    + rewrite (removal_miss u w E). repeat split.
  - left. destruct (PyFloat.of_string (PyStr.strip u)) as [v|] eqn:Hp.
    + destruct (current_meal_participants (self w)) as [|kv d] eqn:Hd.
      * rewrite (process_bill_nobody u v w Hp Hd). repeat split.
      * assert (Hne : current_meal_participants (self w) <> [])
          by (rewrite Hd; discriminate).
        rewrite (process_bill_split u v w Hp Hne). cbn [snd].
        match goal with
        | |- context [sync_to_google_sheets v ?sh ?w1] =>
            destruct (sync_to_google_sheets_spec v sh w1)
              as (w' & Hs & Hself & _)
        end.
        rewrite Hs. cbn [snd sent_reply with_sent self]. rewrite Hself.
        repeat split.
    + rewrite (process_bill_invalid u w Hp). repeat split.
  - left. repeat split.
Qed.

Lemma handle_update_record_step s u w :
  let b := self w in
  let b' := self (snd (handle_update s u w)) in
  (current_meal_purchaser b' = current_meal_purchaser b
   /\ current_meal_total_bill b' = current_meal_total_bill b)
  \/ (current_meal_purchaser b' = [("name", EmptyString)]
      /\ current_meal_total_bill b' = Int 0)
  \/ (exists x,
        current_meal_purchaser b' = PyDict.setitem "name" x (current_meal_purchaser b)
        /\ current_meal_total_bill b' = current_meal_total_bill b).
Proof.
  unfold handle_update.
  destruct (check_update s u) as [h|] eqn:E; [|left; split; reflexivity].
  pose proof (handler_record_step h (message_text u) w (check_update_In _ _ _ E))
    as H.
  destruct (h (message_text u) w) as [[s'|e] w']; cbn [snd with_log self] in *;
    destruct H as [(H1 & H2 & _) | [(H1 & H2 & _) | (H1 & H2 & _)]]; eauto.
Qed.

Lemma contains_setitem {V} (k : string) (v : V) (d : PyDict.dict V) :
  PyDict.contains k (PyDict.setitem k v d) = true.
Proof.
  destruct (PyDict.contains k (PyDict.setitem k v d)) eqn:E; [reflexivity|].
  apply getitem_of_not_contains in E.
  rewrite PyDictFacts.getitem_setitem in E. discriminate.
Qed.

Lemma run_peers_has_purchaser_name us :
  forall c w,
    has_purchaser_name (self w) ->
    has_purchaser_name (self (snd (run_peers us c w))).
Proof.
  induction us as [|[p u] us IH]; intros c w H; simpl; [exact H|].
  pose proof (handle_update_record_step (c p) u w) as Hs.
  destruct (handle_update (c p) u w) as [s' w']. apply IH.
  cbn [snd] in Hs. unfold has_purchaser_name in *.
  destruct Hs as [[-> _] | [[-> _] | [x [-> _]]]];
    [exact H | reflexivity | apply contains_setitem].
Qed.

(** X8. The purchaser record never loses its ["name"] entry: the bot is
    built with it and every update of every conversation keeps it.  So
    the sync never fails on reading the name, and whenever the service
    answers every call it appends the row of the meal, with that name, to
    the worksheet and logs the success. *)
Theorem purchaser_name_is_always_there
    (us : list (peer * Update)) (c : conversations) (w : Env) :
  has_purchaser_name (self w) ->
  let w' := snd (run_peers us c w) in
  has_purchaser_name (self w')
  /\ (faults (service w') = [] ->
      forall total_bill individual_share,
      exists name,
        PyDict.getitem "name" (current_meal_purchaser (self w')) = Some name
        /\ let w2 := snd (sync_to_google_sheets total_bill individual_share w') in
           log w2 = (log w' ++ [Info_synced total_bill])%list
           /\ PyDict.getitem "Meal Costs" (worksheets (service w2))
              = Some (rows_before (service w')
                      ++ [meal_row (self w') name total_bill individual_share])%list).
Proof.
  intros H w'.
  assert (H' : has_purchaser_name (self w'))
    by now apply run_peers_has_purchaser_name.
  split; [exact H'|].
  intros Hf t s. destruct (getitem_of_contains _ _ H') as [name Hname].
  exists name. split; [exact Hname|].
  destruct (sync_appends_row t s w' name Hf Hname) as [Hrow Hlog].
  split; [exact Hlog | exact Hrow].
Qed.

Lemma purchaser_name_is_always_there_witness :
  let w := boot "token" "google_credential.json" "sheet" Example.today
             {| worksheets := []; faults := [] |} in
  let us := [(1%nat, Command "start_meal"); (2%nat, Command "start_meal");
             (1%nat, Text "Sam"); (2%nat, Text "Alice")] in
  has_purchaser_name (self w)
  /\ has_purchaser_name (self (snd (run_peers us no_conversations w))).
Proof.
  intros w us.
  assert (H : has_purchaser_name (self w)) by reflexivity.
  exact (conj H (proj1 (purchaser_name_is_always_there us no_conversations w H))).
Defined.

Lemma run_peers_total_bill us :
  forall c w,
    current_meal_total_bill (self w) = Int 0 ->
    current_meal_total_bill (self (snd (run_peers us c w))) = Int 0.
Proof.
  induction us as [|[p u] us IH]; intros c w H; simpl; [exact H|].
  pose proof (handle_update_record_step (c p) u w) as Hs.
  destruct (handle_update (c p) u w) as [s' w']. apply IH.
  cbn [snd] in Hs.
  destruct Hs as [[_ ->] | [[_ ->] | [x [_ ->]]]]; auto.
Qed.

(** X9. The bot's own total-bill field is never given the bill: the bot
    is built with 0 there, [start_meal] writes 0 again and no other
    handler writes the field, the bill handler included (it keeps the
    amount in a local variable).  So the field reads 0 after any updates
    of any conversations. *)
Theorem total_bill_field_stays_zero
    (us : list (peer * Update)) (c : conversations)
    (telegram_token credentials_path spreadsheet : string)
    (now : datetime) (svc : Sheets) :
  current_meal_total_bill
    (self (snd (run_peers us c
                  (boot telegram_token credentials_path spreadsheet now svc))))
  = Int 0.
Proof. now apply run_peers_total_bill. Qed.

(** ** A bill with nobody to share it *)

(** X10. When the bot waits for a bill while the participant map is
    empty, a text that parses as a number gets no reply at all: the
    division raises [ZeroDivisionError], which the handler does not
    catch, so the application logs it, nothing is sent, the spreadsheet
    is not called, the bot object is unchanged and the conversation
    keeps waiting for the bill.  A text that does not parse is answered
    as usual, the parse coming first. *)
Theorem bill_with_nobody_gets_no_reply
    (w : Env) (update : string) (total_bill : PyFloat.float) :
  current_meal_participants (self w) = [] ->
  (PyFloat.of_string (PyStr.strip update) = Some total_bill ->
   handle_update WAITING_FOR_BILL (Text update) w
   = (WAITING_FOR_BILL,
      with_log
        (fun l =>
           (l ++ [Error_unhandled (ZeroDivisionError "float division by zero")])%list)
        w))
  /\ (PyFloat.of_string (PyStr.strip update) = None ->
      handle_update WAITING_FOR_BILL (Text update) w
      = (WAITING_FOR_BILL, with_sent (fun l => (l ++ [invalid_amount])%list) w)).
Proof.
  intros Hd. split; intros Hp.
  - rewrite handle_update_bill, (process_bill_nobody update total_bill w Hp Hd).
    reflexivity.
  - now apply handle_update_invalid.
Qed.

Lemma bill_with_nobody_gets_no_reply_witness :
  let w := Example.env [] [Some (APIError "quota")] in
  current_meal_participants (self w) = []
  /\ PyFloat.of_string (PyStr.strip "100") = Some (PyFloat.of_decimal false 100 0)
  /\ handle_update WAITING_FOR_BILL (Text "100") w
     = (WAITING_FOR_BILL,
        with_log
          (fun l =>
             (l ++ [Error_unhandled (ZeroDivisionError "float division by zero")])%list)
          w).
Proof.
  intros w.
  exact (conj eq_refl
           (conj eq_refl
              (proj1 (bill_with_nobody_gets_no_reply w "100" _ eq_refl) eq_refl))).
Defined.

Lemma purchaser_name_is_recorded_witness :
  let w := boot "token" "google_credential.json" "sheet" Example.today
             {| worksheets := []; faults := [] |} in
  let r := handle_update WAITING_FOR_PURCHASER_INFO (Text "  Sam ") w in
  "contact" <> "name"
  /\ PyDict.getitem "name" (current_meal_purchaser (self (snd r))) = Some "Sam"
  /\ PyDict.getitem "contact" (current_meal_purchaser (self (snd r)))
     = Some EmptyString.
Proof.
  intros w r.
  assert (H : "contact" <> "name") by discriminate.
  destruct (purchaser_name_is_recorded w "  Sam ") as (_ & H1 & H2 & _).
  exact (conj H (conj H1 (H2 "contact" H))).
Defined.

(** ** Adding and removing *)

Lemma rstrip_idem (s : string) : PyStr.rstrip (PyStr.rstrip s) = PyStr.rstrip s.
Proof.
  induction s as [|c s IH]; [reflexivity|]. simpl.
  destruct (PyStr.rstrip s) as [|c2 r] eqn:E.
  - destruct (PyStr.is_space c) eqn:Ec; simpl; [reflexivity | now rewrite Ec].
  - change (PyStr.rstrip (String c (String c2 r))) with
      (match PyStr.rstrip (String c2 r) with
       | EmptyString =>
           if PyStr.is_space c then EmptyString else String c EmptyString
       | r' => String c r'
       end).
    now rewrite IH.
Qed.

Lemma rstrip_head (c : ascii) (s : string) :
  PyStr.is_space c = false -> exists t, PyStr.rstrip (String c s) = String c t.
Proof.
  intros Hc. simpl. destruct (PyStr.rstrip s); rewrite ?Hc; eauto.
Qed.

Lemma lstrip_cases (s : string) :
  PyStr.lstrip s = EmptyString
  \/ exists c t, PyStr.lstrip s = String c t /\ PyStr.is_space c = false.
Proof.
  induction s as [|c s IH]; simpl; [now left|].
  destruct (PyStr.is_space c) eqn:Ec; [exact IH | right; eauto].
Qed.

(** Trimming a trimmed text changes nothing. *)
Lemma strip_idem (s : string) : PyStr.strip (PyStr.strip s) = PyStr.strip s.
Proof.
  unfold PyStr.strip.
  destruct (lstrip_cases s) as [-> | (c & t & -> & Hc)]; [reflexivity|].
  destruct (rstrip_head c t Hc) as [t' Ht]. rewrite Ht.
  simpl PyStr.lstrip. rewrite Hc, <- Ht. apply rstrip_idem.
Qed.

(** X11. Adding a name and removing it again, by the same text, gives
    back the bot object there was: for every text whose trimmed form
    collides with no participant, the add followed by the removal ends in
    the collection state with the bot object unchanged, having sent the
    two confirmations. *)
Theorem add_then_remove_restores (w : Env) (update : string) :
  collides (PyStr.strip update) (current_meal_participants (self w)) = false ->
  let w1 := snd (handle_update WAITING_FOR_PARTICIPANTS (Text update) w) in
  let r := handle_update REMOVING_PARTICIPANT (Text update) w1 in
  fst r = WAITING_FOR_PARTICIPANTS
  /\ self (snd r) = self w
  /\ service (snd r) = service w
  /\ log (snd r) = log w
  /\ sent (snd r)
     = (sent w ++ [added (PyStr.strip update); removed (PyStr.strip update)])%list.
Proof.
  intros Hc w1 r. subst r w1.
  rewrite handle_update_add, (add_participant_fresh update w Hc). cbn [snd].
  rewrite handle_update_removal.
  erewrite removal_hit.
  2:{ cbn [self with_sent with_self set_participants current_meal_participants].
      apply PyDictFacts.delitem_last. intros Hin.
      exact (collides_false _ _ Hc _ Hin eq_refl). }
  destruct w as [[] ? ? ? ?]. cbn. rewrite <- app_assoc. repeat split.
Qed.

Lemma add_then_remove_restores_witness :
  let w := Example.env Example.alice_bob [] in
  let w1 := snd (handle_update WAITING_FOR_PARTICIPANTS (Text " Carol ") w) in
  collides (PyStr.strip " Carol ") (current_meal_participants (self w)) = false
  /\ self (snd (handle_update REMOVING_PARTICIPANT (Text " Carol ") w1)) = self w.
Proof.
  intros w w1.
  exact (conj eq_refl
           (proj1 (proj2 (add_then_remove_restores w " Carol " eq_refl)))).
Defined.

(** One handler call adds at most the trimmed text to the names. *)
Lemma handler_keys_incl h u w :
  In h handlers ->
  incl (PyDict.keys (current_meal_participants (self (snd (h u w)))))
    (PyDict.keys (current_meal_participants (self w)) ++ [PyStr.strip u])%list.
Proof.
  intros Hh.
  assert (Hsame : incl (PyDict.keys (current_meal_participants (self w)))
                    (PyDict.keys (current_meal_participants (self w))
                     ++ [PyStr.strip u])%list)
    by (apply incl_appl, incl_refl).
  revert Hh. unfold handlers. simpl.
  intros [<-|[<-|[<-|[<-|[<-|[<-|[<-|[<-|[<-|[<-|[]]]]]]]]]]].
  - exact Hsame.
  - intros x [].
  - rewrite collect_purchaser_name_eq. exact Hsame.
  - destruct (collides (PyStr.strip u) (current_meal_participants (self w))) eqn:E.
    + rewrite (add_participant_duplicate u w E). exact Hsame.
    + rewrite (add_participant_fresh u w E).
      cbn [snd with_sent with_self self set_participants current_meal_participants].
      rewrite PyDictFacts.keys_app. apply incl_refl.
  - unfold remove_participant, bind, get_self.
    destruct (current_meal_participants (self w)) eqn:E; simpl; rewrite ?E;
      exact Hsame.
  - unfold list_participants, bind, get_self.
    destruct (current_meal_participants (self w)) eqn:E; simpl; rewrite ?E;
      exact Hsame.
  - unfold finish_participants, bind, get_self.
    destruct (current_meal_participants (self w)) eqn:E; simpl; rewrite ?E;
      exact Hsame.
  - destruct (PyDict.contains (PyStr.strip u) (current_meal_participants (self w)))
      eqn:E.
    + apply PyDictFacts.contains_In in E.
      destruct (PyDictFacts.delitem_hit _ _ E) as (l1 & v & l2 & Hd & _ & Hdel).
      rewrite (removal_hit u w _ Hdel).
      cbn [snd with_sent with_self self set_participants current_meal_participants].
      rewrite Hd, !PyDictFacts.keys_app. simpl.
      intros x Hx. rewrite !in_app_iff in *. simpl. tauto.
    + rewrite (removal_miss u w E). exact Hsame.
  - destruct (PyFloat.of_string (PyStr.strip u)) as [v|] eqn:Hp.
    + destruct (current_meal_participants (self w)) as [|kv d] eqn:Hd.
      * rewrite (process_bill_nobody u v w Hp Hd). simpl. rewrite Hd.
        intros x [].
      * assert (Hne : current_meal_participants (self w) <> [])
          by (rewrite Hd; discriminate).
        rewrite (process_bill_split u v w Hp Hne). cbn [snd].
        match goal with
        | |- context [sync_to_google_sheets v ?sh ?w1] =>
            destruct (sync_to_google_sheets_spec v sh w1)
              as (w' & Hs & Hself & _)
        end.
        rewrite Hs. cbn [snd sent_reply with_sent self]. rewrite Hself.
        cbn [after_split with_self self set_participants
             current_meal_participants].
        unfold split_dict.
        rewrite PyDictFacts.keys_fold_setitem by apply incl_refl.
        rewrite Hd. exact Hsame.
    + rewrite (process_bill_invalid u w Hp). exact Hsame.
  - exact Hsame.
Qed.

Lemma handle_update_trimmed s u w :
  trimmed_keys (current_meal_participants (self w)) ->
  trimmed_keys (current_meal_participants (self (snd (handle_update s u w)))).
Proof.
  intros H. unfold handle_update.
  destruct (check_update s u) as [h|] eqn:E; [|exact H].
  pose proof (handler_keys_incl h (message_text u) w (check_update_In _ _ _ E))
    as Hi.
  assert (Ht : trimmed_keys
                 (current_meal_participants (self (snd (h (message_text u) w))))).
  { unfold trimmed_keys in *. rewrite Forall_forall in *.
    intros k Hk. apply Hi in Hk. rewrite in_app_iff in Hk.
    destruct Hk as [Hk | [<- | []]]; [now apply H | apply strip_idem]. }
  destruct (h (message_text u) w) as [[s'|e] w']; exact Ht.
Qed.

Lemma run_peers_trimmed us :
  forall c w,
    trimmed_keys (current_meal_participants (self w)) ->
    trimmed_keys (current_meal_participants (self (snd (run_peers us c w)))).
Proof.
  induction us as [|[p u] us IH]; intros c w H; simpl; [exact H|].
  pose proof (handle_update_trimmed (c p) u w H) as Hs.
  destruct (handle_update (c p) u w) as [s' w']. now apply IH.
Qed.

(** X12. Every button of the removal keyboard works.  The names in the
    map of a running bot are trimmed and pairwise distinct, so sending
    back any of them, as pressing its button does, is a hit: the
    participant is removed and confirmed, the name is in the map no
    more, the map is one entry shorter and the conversation is back in
    the collection state. *)
Theorem keyboard_button_removes
    (us : list (peer * Update)) (c : conversations)
    (telegram_token credentials_path spreadsheet : string)
    (now : datetime) (svc : Sheets) (k : string) :
  let w := snd (run_peers us c
                  (boot telegram_token credentials_path spreadsheet now svc)) in
  let d := current_meal_participants (self w) in
  let r := handle_update REMOVING_PARTICIPANT (Text k) w in
  let d' := current_meal_participants (self (snd r)) in
  In k (PyDict.keys d) ->
  fst r = WAITING_FOR_PARTICIPANTS
  /\ sent (snd r) = (sent w ++ [removed k])%list
  /\ ~ In k (PyDict.keys d')
  /\ S (PyDict.len d') = PyDict.len d.
Proof.
  intros w d r d' Hin.
  assert (Ht : trimmed_keys d).
  { subst d w. apply run_peers_trimmed. constructor. }
  assert (Hwf : PyDict.wf d).
  { subst d w. apply ci_unique_wf, run_peers_ci_unique. constructor. }
  assert (Hk : PyStr.strip k = k).
  { unfold trimmed_keys in Ht. rewrite Forall_forall in Ht. now apply Ht. }
  destruct (PyDictFacts.delitem_hit _ _ Hin) as (l1 & v & l2 & Hd & _ & Hdel).
  rewrite <- Hk in Hdel.
  subst d' r. rewrite handle_update_removal, (removal_hit k w _ Hdel), Hk.
  cbn [fst snd with_sent with_self self set_participants
       current_meal_participants sent].
  split; [reflexivity|]. split; [reflexivity|]. split.
  - unfold PyDict.wf in Hwf. rewrite Hd in Hwf.
    rewrite PyDictFacts.keys_app in *. simpl in Hwf.
    now apply NoDup_remove_2 in Hwf.
  - rewrite Hd. unfold PyDict.len. rewrite !length_app. simpl. lia.
Qed.

Lemma keyboard_button_removes_witness :
  let us := [(1%nat, Command "start_meal"); (1%nat, Text "Sam");
             (1%nat, Text "  Alice "); (1%nat, Text "Bob");
             (1%nat, Command "remove")] in
  let w := snd (run_peers us no_conversations
                  (boot "token" "google_credential.json" "sheet" Example.today
                     {| worksheets := []; faults := [] |})) in
  In "Alice" (PyDict.keys (current_meal_participants (self w)))
  /\ ~ In "Alice"
       (PyDict.keys
          (current_meal_participants
             (self (snd (handle_update REMOVING_PARTICIPANT (Text "Alice") w))))).
Proof.
  intros us w.
  assert (H : In "Alice" (PyDict.keys (current_meal_participants (self w))))
    by (simpl; auto).
  exact (conj H
           (proj1 (proj2 (proj2
              (keyboard_button_removes us no_conversations
                 "token" "google_credential.json" "sheet" Example.today
                 {| worksheets := []; faults := [] |} "Alice" H))))).
Defined.

(** ** The ledger *)

(** The sync acts on the environment by four moves only: a call to the
    service consumes a scheduled fault, a worksheet that is not there is
    added empty, a row is appended to a worksheet that is there, a record
    is logged.  A transitive relation that these moves
    respect holds between the environments before and after the sync. *)
Section SyncMoves.
Variable R : Env -> Env -> Prop.
Hypothesis R_trans : forall w1 w2 w3, R w1 w2 -> R w2 w3 -> R w1 w3.
Hypothesis R_call : forall w, R w (snd (api_call w)).
Hypothesis R_add :
  forall w title,
    PyDict.contains title (worksheets (service w)) = false ->
    R w (with_service (set_worksheets (PyDict.setitem title [])) w).
Hypothesis R_append :
  forall w ws rows values,
    PyDict.getitem ws (worksheets (service w)) = Some rows ->
    R w (with_service
           (set_worksheets (PyDict.setitem ws (rows ++ [values])%list)) w).
Hypothesis R_log : forall w r, R w (with_log (fun l => (l ++ [r])%list) w).

Lemma moves_api_call Q w :
  (forall r w', R w w' -> Q r w') -> wp api_call Q w.
Proof. intros H. unfold wp. apply H, R_call. Qed.

Lemma moves_worksheet title Q w :
  (forall r w', R w w' -> Q r w') -> wp (worksheet title) Q w.
Proof.
  intros H. unfold worksheet. apply wp_bind, moves_api_call.
  intros [[]|e] w1 H1; [|auto].
  apply wp_bind, wp_get_worksheets.
  destruct (PyDict.contains title (worksheets (service w1)));
    [apply wp_ret | apply wp_raise]; auto.
Qed.

Lemma moves_add_worksheet title rows cols Q w :
  (forall r w', R w w' -> Q r w') -> wp (add_worksheet title rows cols) Q w.
Proof.
  intros H. unfold add_worksheet. apply wp_bind, moves_api_call.
  intros [[]|e] w1 H1; [|auto].
  apply wp_bind, wp_get_worksheets.
  destruct (PyDict.contains title (worksheets (service w1))) eqn:E.
  - apply wp_raise; auto.
  - unfold wp; simpl. apply H. eapply R_trans; [exact H1 | now apply R_add].
Qed.

Lemma moves_append_row ws values Q w :
  (forall r w', R w w' -> Q r w') -> wp (append_row ws values) Q w.
Proof.
  intros H. unfold append_row. apply wp_bind, moves_api_call.
  intros [[]|e] w1 H1; [|auto].
  apply wp_bind, wp_get_worksheets.
  destruct (PyDict.getitem ws (worksheets (service w1))) eqn:E.
  - unfold wp; simpl. apply H. eapply R_trans; [exact H1 | now apply R_append].
  - apply wp_raise; auto.
Qed.

Lemma moves_sync_body t s w :
  wp (sync_body t s) (fun _ w' => R w w') w.
Proof.
  unfold sync_body.
  apply wp_bind, wp_get_self, wp_bind. unfold open_by_key.
  apply moves_api_call. intros [[]|e] w1 H1; [|auto].
  assert (Hk : forall (ws : string) w2,
             R w w2 ->
             wp (b <- get_self ;;
                 name <- of_option
                           (PyDict.getitem "name" (current_meal_purchaser b))
                           (KeyError "name") ;;
                 append_row ws (meal_row b name t s) ;;
                 logger (Info_synced t)) (fun _ w' => R w w') w2).
  { intros ws w2 H2. apply wp_bind, wp_get_self, wp_bind, wp_of_option.
    destruct (PyDict.getitem "name" (current_meal_purchaser (self w2)));
      [|auto].
    apply wp_bind, moves_append_row. intros [[]|e] w3 H3.
    - apply wp_logger. eapply R_trans; [|apply R_log]. eauto.
    - eauto. }
  apply wp_bind, wp_try, moves_worksheet. intros [ws|e] w2 H2.
  - apply Hk. eauto.
  - destruct (catches except_WorksheetNotFound e); [|eauto].
    apply wp_bind, moves_add_worksheet. intros [ws|e'] w3 H3.
    + apply wp_bind, moves_append_row. intros [[]|e''] w4 H4.
      * apply wp_ret, Hk. eauto.
      * eauto.
    + eauto.
Qed.

Lemma moves_sync t s w : R w (snd (sync_to_google_sheets t s w)).
Proof.
  pose proof (moves_sync_body t s w) as H. unfold wp in H.
  unfold sync_to_google_sheets, try_except.
  destruct (sync_body t s w) as [[[]|e] w1]; simpl in *; [exact H|].
  eapply R_trans; [exact H | apply R_log].
Qed.

End SyncMoves.

Lemma sheets_grow_refl s : sheets_grow s s.
Proof. intros title rows H. exists []. now rewrite app_nil_r. Qed.

Lemma sheets_grow_trans s1 s2 s3 :
  sheets_grow s1 s2 -> sheets_grow s2 s3 -> sheets_grow s1 s3.
Proof.
  intros H1 H2 title rows H. destruct (H1 _ _ H) as [m1 Hm1].
  destruct (H2 _ _ Hm1) as [m2 Hm2]. exists (m1 ++ m2)%list.
  now rewrite app_assoc.
Qed.

(** The sync never drops a worksheet nor removes or rewrites a row,
    whatever the service does. *)
Lemma sync_sheets_grow t s w :
  sheets_grow (service w) (service (snd (sync_to_google_sheets t s w))).
Proof.
  apply (moves_sync (fun w w' => sheets_grow (service w) (service w'))).
  - intros. eapply sheets_grow_trans; eauto.
  - intros w0. unfold api_call.
    destruct (faults (service w0)) as [|[e|] fs]; intros k rows Hk;
      exists []; cbn; rewrite app_nil_r; exact Hk.
  - intros w0 title Hc k rows Hk. exists []. rewrite app_nil_r. cbn.
    rewrite getitem_setitem_other; [exact Hk|].
    intros ->. rewrite (getitem_of_not_contains _ _ Hc) in Hk. discriminate.
  - intros w0 ws rows values Hws k rows' Hk. cbn.
    destruct (String.eqb_spec k ws) as [->|Hne].
    + exists [values]. rewrite PyDictFacts.getitem_setitem. congruence.
    + exists []. rewrite app_nil_r. now rewrite getitem_setitem_other.
  - intros. apply sheets_grow_refl.
Qed.

Lemma handler_sheets_grow h u w :
  In h handlers -> sheets_grow (service w) (service (snd (h u w))).
Proof.
  unfold handlers. simpl.
  intros [<-|[<-|[<-|[<-|[<-|[<-|[<-|[<-|[<-|[<-|[]]]]]]]]]]];
    try apply sheets_grow_refl.
  - rewrite collect_purchaser_name_eq. apply sheets_grow_refl.
  - destruct (collides (PyStr.strip u) (current_meal_participants (self w))) eqn:E;
      [rewrite (add_participant_duplicate u w E)
      | rewrite (add_participant_fresh u w E)]; apply sheets_grow_refl.
  - unfold remove_participant, bind, get_self.
    destruct (current_meal_participants (self w)); apply sheets_grow_refl.
  - unfold list_participants, bind, get_self.
    destruct (current_meal_participants (self w)); apply sheets_grow_refl.
  - unfold finish_participants, bind, get_self.
    destruct (current_meal_participants (self w)); apply sheets_grow_refl.
  - destruct (PyDict.contains (PyStr.strip u) (current_meal_participants (self w)))
      eqn:E.
    + apply PyDictFacts.contains_In in E.
      destruct (PyDictFacts.delitem_hit _ _ E) as (l1 & v & l2 & _ & _ & Hdel).
      rewrite (removal_hit u w _ Hdel). apply sheets_grow_refl.
    + rewrite (removal_miss u w E). apply sheets_grow_refl.
  - destruct (PyFloat.of_string (PyStr.strip u)) as [v|] eqn:Hp.
    + destruct (current_meal_participants (self w)) as [|kv d] eqn:Hd.
      * rewrite (process_bill_nobody u v w Hp Hd). apply sheets_grow_refl.
      * assert (Hne : current_meal_participants (self w) <> [])
          by (rewrite Hd; discriminate).
        rewrite (process_bill_split u v w Hp Hne). cbn [snd].
        match goal with
        | |- context [sync_to_google_sheets v ?sh ?w1] =>
            exact (sync_sheets_grow v sh w1)
        end.
    + rewrite (process_bill_invalid u w Hp). apply sheets_grow_refl.
Qed.

Lemma handle_update_sheets_grow s u w :
  sheets_grow (service w) (service (snd (handle_update s u w))).
Proof.
  unfold handle_update.
  destruct (check_update s u) as [h|] eqn:E; [|apply sheets_grow_refl].
  pose proof (handler_sheets_grow h (message_text u) w (check_update_In _ _ _ E))
    as H.
  destruct (h (message_text u) w) as [[s'|e] w']; exact H.
Qed.

(** X13. The ledger is append-only.  Whatever updates arrive, from
    whatever conversations, and whatever the service does (any call may
    fail), every worksheet of the spreadsheet is still there afterwards
    and starts with the rows it had: the bot never deletes a worksheet
    and never removes or rewrites a row. *)
Theorem ledger_is_append_only
    (us : list (peer * Update)) (c : conversations) (w : Env)
    (title : string) (rows : list row) :
  PyDict.getitem title (worksheets (service w)) = Some rows ->
  exists more,
    PyDict.getitem title (worksheets (service (snd (run_peers us c w))))
    = Some (rows ++ more)%list.
Proof.
  revert title rows.
  change (sheets_grow (service w) (service (snd (run_peers us c w)))).
  revert c w. induction us as [|[p u] us IH]; intros c w; simpl.
  - apply sheets_grow_refl.
  - pose proof (handle_update_sheets_grow (c p) u w) as H.
    destruct (handle_update (c p) u w) as [s' w'].
    eapply sheets_grow_trans; [exact H | apply IH].
Qed.

Lemma ledger_is_append_only_witness :
  let old := [header_row; [CStr "2026-11-02"; CStr "Kim"]] in
  let w := {| self := Example.bot Example.alice_bob;
              service := {| worksheets := [("Meal Costs", old)];
                            faults := [None; None; Some (APIError "quota")] |};
              clock := Example.today; sent := []; log := [] |} in
  PyDict.getitem "Meal Costs" (worksheets (service w)) = Some old
  /\ exists more,
       PyDict.getitem "Meal Costs"
         (worksheets
            (service (snd (run_peers [(1%nat, Text "100"); (2%nat, Text "30")]
                             (fun _ => WAITING_FOR_BILL) w))))
       = Some (old ++ more)%list.
Proof.
  intros old w.
  exact (conj eq_refl
           (ledger_is_append_only [(1%nat, Text "100"); (2%nat, Text "30")]
              (fun _ => WAITING_FOR_BILL) w "Meal Costs" old eq_refl)).
Defined.

(** ** A whole meal *)

Lemma run_app us1 us2 :
  forall s w,
    run (us1 ++ us2) s w
    = run us2 (fst (run us1 s w)) (snd (run us1 s w)).
Proof.
  induction us1 as [|u us1 IH]; intros s w; simpl; [reflexivity|].
  destruct (handle_update s u w) as [s' w']. apply IH.
Qed.

Lemma collides_app name a v d :
  collides name (d ++ [(a, v)])%list
  = collides name d || String.eqb (PyStr.lower name) (PyStr.lower a).
Proof.
  unfold collides. rewrite PyDictFacts.keys_app, map_app, existsb_app.
  simpl. now rewrite orb_false_r.
Qed.

Lemma run_add_names names :
  forall w,
    (forall n, In n names ->
               collides (PyStr.strip n) (current_meal_participants (self w)) = false) ->
    NoDup (map (fun n => PyStr.lower (PyStr.strip n)) names) ->
    run (map Text names) WAITING_FOR_PARTICIPANTS w
    = (WAITING_FOR_PARTICIPANTS, fold_left add_one names w).
Proof.
  induction names as [|n names IH]; intros w Hc Hnd; [reflexivity|].
  cbn [map run fold_left].
  rewrite handle_update_add, (add_participant_fresh n w (Hc n (or_introl eq_refl))).
  fold (add_one w n). inversion Hnd as [|x l Hx Hl]; subst.
  apply IH; [|exact Hl].
  intros n' Hn'. unfold add_one.
  cbn [self with_sent with_self set_participants current_meal_participants].
  rewrite collides_app, (Hc n' (or_intror Hn')). simpl.
  apply String.eqb_neq. intros He. apply Hx. rewrite <- He.
  now apply (in_map (fun n => PyStr.lower (PyStr.strip n))).
Qed.

Lemma fold_add_one names :
  forall w,
    let w' := fold_left add_one names w in
    current_meal_participants (self w')
    = (current_meal_participants (self w)
       ++ map (fun n => (PyStr.strip n, Int 0)) names)%list
    /\ current_meal_purchaser (self w') = current_meal_purchaser (self w)
    /\ current_meal_date (self w') = current_meal_date (self w)
    /\ service w' = service w /\ clock w' = clock w /\ log w' = log w
    /\ sent w' = (sent w ++ map (fun n => added (PyStr.strip n)) names)%list.
Proof.
  induction names as [|n names IH]; intros w; cbn [fold_left map].
  - rewrite !app_nil_r. repeat split.
  - destruct (IH (add_one w n)) as (H1 & H2 & H3 & H4 & H5 & H6 & H7).
    cbv zeta. rewrite H1, H2, H3, H4, H5, H6, H7. unfold add_one.
    cbn [self with_sent with_self set_participants current_meal_participants
         current_meal_purchaser current_meal_date service clock log sent].
    rewrite <- !app_assoc. repeat split.
Qed.

Lemma handle_update_done w :
  current_meal_participants (self w) <> [] ->
  handle_update WAITING_FOR_PARTICIPANTS (Command "done") w
  = (WAITING_FOR_BILL,
     with_sent
       (fun l => (l ++ [participants_listed (current_meal_participants (self w))])%list)
       w).
Proof.
  intros H. unfold handle_update, check_update. simpl first_match.
  unfold finish_participants, bind, get_self.
  destruct (current_meal_participants (self w)); [congruence | reflexivity].
Qed.

Lemma sync_faults_stay_empty t s w :
  faults (service w) = [] ->
  faults (service (snd (sync_to_google_sheets t s w))) = [].
Proof.
  apply (moves_sync
           (fun w w' => faults (service w) = [] -> faults (service w') = [])).
  - auto.
  - intros w0 H. unfold api_call. now rewrite H.
  - auto.
  - auto.
  - auto.
Qed.

(** X14. A whole meal, from end to end.  With no conversation under way
    and a service that answers, [/start_meal], the purchaser, names that
    differ pairwise when trimmed and lowered, [/done] and a bill that
    parses end the conversation with: every trimmed name in the map, in
    the order given, each with the share [round(bill / count, 2)]; the
    purchaser record holding the trimmed purchaser; the replies of each
    step, ending with the itemized message; one row appended to the
    ledger after the rows it had (after the header if it was created),
    dated by the clock read at [/start_meal]; and the success logged.
    Whatever session the bot object held before is gone. *)
Theorem whole_meal_is_recorded
    (w : Env) (purchaser : string) (names : list string) (bill : string)
    (total_bill : PyFloat.float) :
  names <> [] ->
  NoDup (map (fun n => PyStr.lower (PyStr.strip n)) names) ->
  PyFloat.of_string (PyStr.strip bill) = Some total_bill ->
  faults (service w) = [] ->
  let r := run (meal purchaser names bill) END w in
  let people := map PyStr.strip names in
  let share := share_of total_bill (List.length names) in
  let split := map (fun n => (n, Float share)) people in
  fst r = END
  /\ current_meal_participants (self (snd r)) = split
  /\ current_meal_purchaser (self (snd r)) = [("name", PyStr.strip purchaser)]
  /\ sent (snd r)
     = (sent w ++ [starting; thanks (PyStr.strip purchaser)]
        ++ map added people
        ++ [participants_listed (map (fun n => (n, Int 0)) people);
            {| text := bill_message split total_bill; reply_markup := None |}])%list
  /\ PyDict.getitem "Meal Costs" (worksheets (service (snd r)))
     = Some (rows_before (service w)
             ++ [[CStr (strftime_Ymd (clock w));
                  CStr (PyStr.strip purchaser);
                  CNum total_bill;
                  CStr (PyStr.join ", " people);
                  CNum share]])%list
  /\ log (snd r) = (log w ++ [Info_synced total_bill])%list
  /\ faults (service (snd r)) = [].
Proof.
  intros Hne Hnd Hp Hf r people share split.
  set (w1 := snd (handle_update END (Command "start_meal") w)).
  set (w2 := with_sent (fun l => (l ++ [thanks (PyStr.strip purchaser)])%list)
               (with_self
                  (set_purchaser (PyDict.setitem "name" (PyStr.strip purchaser)))
                  w1)).
  set (w3 := fold_left add_one names w2).
  set (d3 := map (fun n => (n, Int 0)) people).
  set (w4 := with_sent (fun l => (l ++ [participants_listed d3])%list) w3).
  destruct (fold_add_one names w2) as (F1 & F2 & F3 & F4 & F5 & F6 & F7).
  fold w3 in F1, F2, F3, F4, F5, F6, F7.
  assert (Hd3 : current_meal_participants (self w3) = d3).
  { rewrite F1. subst d3 people. now rewrite map_map. }
  assert (Hd3ne : current_meal_participants (self w3) <> []).
  { rewrite Hd3. subst d3 people. destruct names; [congruence | discriminate]. }
  assert (Hlen : PyDict.len d3 = List.length names).
  { subst d3 people. unfold PyDict.len. now rewrite !length_map. }
  assert (Hkeys : PyDict.keys d3 = people).
  { subst d3. unfold PyDict.keys. rewrite map_map. apply map_id. }
  assert (Hwf : PyDict.wf d3).
  { unfold PyDict.wf. rewrite Hkeys. subst people.
    rewrite <- (map_map PyStr.strip PyStr.lower) in Hnd.
    exact (NoDup_map_inv _ _ Hnd). }
  assert (Hrun : r = handle_update WAITING_FOR_BILL (Text bill) w4).
  { subst r. unfold meal. cbn [run].
    change (handle_update END (Command "start_meal") w)
      with (WAITING_FOR_PURCHASER_INFO, w1).
    cbv iota beta.
    assert (H2 : handle_update WAITING_FOR_PURCHASER_INFO (Text purchaser) w1
                 = (WAITING_FOR_PARTICIPANTS, w2)).
    { unfold handle_update.
      cbn [check_update states first_match matches message_text].
      now rewrite collect_purchaser_name_eq. }
    rewrite H2, run_app, run_add_names; [|intros; reflexivity | exact Hnd].
    cbn [fst snd run]. fold w3.
    rewrite (handle_update_done w3 Hd3ne), Hd3. fold w4.
    destruct (handle_update WAITING_FOR_BILL (Text bill) w4); reflexivity. }
  assert (Hd4 : current_meal_participants (self w4) <> []) by exact Hd3ne.
  rewrite Hrun, handle_update_bill, (process_bill_split bill total_bill w4 Hp Hd4).
  change (current_meal_participants (self w4))
    with (current_meal_participants (self w3)).
  rewrite Hd3, Hlen. fold share.
  set (w5 := after_split share w4).
  assert (Hname : PyDict.getitem "name" (current_meal_purchaser (self w5))
                  = Some (PyStr.strip purchaser)).
  { subst w5 w4. cbn [after_split with_self with_sent self set_participants
                      current_meal_purchaser]. rewrite F2. reflexivity. }
  assert (Hf5 : faults (service w5) = []).
  { subst w5 w4. cbn [after_split with_self with_sent service]. now rewrite F4. }
  destruct (sync_to_google_sheets_spec total_bill share w5)
    as (w6 & Hs & Hself & _ & Hsent & _).
  destruct (sync_appends_row total_bill share w5 _ Hf5 Hname) as [Hrow Hlog].
  pose proof (sync_faults_stay_empty total_bill share w5 Hf5) as Hf6.
  rewrite Hs in *. cbn [fst snd sent_reply with_sent self service log sent] in *.
  assert (Hsplit : current_meal_participants (self w5) = split).
  { subst w5. rewrite after_split_participants by (cbn; rewrite Hd3; exact Hwf).
    change (current_meal_participants (self w4))
      with (current_meal_participants (self w3)).
    rewrite Hd3. subst d3 split. rewrite map_map. reflexivity. }
  split; [reflexivity|]. split; [now rewrite Hself|].
  split.
  { rewrite Hself. subst w5 w4.
    cbn [after_split with_self with_sent self set_participants
         current_meal_purchaser]. rewrite F2. reflexivity. }
  split.
  { rewrite Hsent. subst w5 w4.
    cbn [after_split with_self with_sent sent]. rewrite F7.
    subst w2 w1. cbn [with_self with_sent sent].
    change (sent (snd (handle_update END (Command "start_meal") w)))
      with (sent w ++ [starting])%list.
    unfold split_dict. rewrite (PyDictFacts.fold_setitem_all _ _ Hwf).
    subst d3 split people. rewrite !map_map, <- !app_assoc.
    cbn [app fst]. reflexivity. }
  split.
  { rewrite Hrow. unfold meal_row. rewrite Hsplit.
    subst w5 w4. cbn [after_split with_self with_sent self set_participants
                      current_meal_date service]. rewrite F3, F4.
    replace (PyDict.keys split) with people
      by (subst split; unfold PyDict.keys; rewrite map_map; symmetry; apply map_id).
    reflexivity. }
  split; [|exact Hf6].
  rewrite Hlog. subst w5 w4. cbn [after_split with_self with_sent log].
  rewrite F6. reflexivity.
Qed.

Lemma whole_meal_is_recorded_witness :
  let w := Example.env Example.alice_bob [] in
  let names := ["Ann"; " Ben "; "cy"] in
  let r := run (meal " Sam " names "10") END w in
  names <> []
  /\ NoDup (map (fun n => PyStr.lower (PyStr.strip n)) names)
  /\ PyFloat.of_string (PyStr.strip "10") = Some (PyFloat.of_decimal false 10 0)
  /\ faults (service w) = []
  /\ fst r = END
  /\ current_meal_participants (self (snd r))
     = map (fun n => (n, Float (share_of (PyFloat.of_decimal false 10 0) 3)))
         ["Ann"; "Ben"; "cy"]
  /\ log (snd r) = [Info_synced (PyFloat.of_decimal false 10 0)].
Proof.
  intros w names r.
  assert (H1 : names <> []) by discriminate.
  assert (H2 : NoDup (map (fun n => PyStr.lower (PyStr.strip n)) names))
    by (simpl; repeat constructor; simpl; intuition discriminate).
  destruct (whole_meal_is_recorded w " Sam " names "10" _ H1 H2 eq_refl eq_refl)
    as (R1 & R2 & _ & _ & _ & R6 & _).
  exact (conj H1 (conj H2 (conj eq_refl (conj eq_refl (conj R1 (conj R2 R6)))))).
Defined.

(** ** Shares before the split *)

Lemma handle_update_text_unsplit s t w :
  (s <> END -> unsplit (current_meal_participants (self w))) ->
  fst (handle_update s (Text t) w) <> END ->
  unsplit (current_meal_participants (self (snd (handle_update s (Text t) w)))).
Proof.
  intros Hu. destruct s.
  - specialize (Hu ltac:(discriminate)). rewrite handle_update_add.
    destruct (collides (PyStr.strip t) (current_meal_participants (self w))) eqn:E;
      [rewrite (add_participant_duplicate t w E)
      | rewrite (add_participant_fresh t w E)]; intros _; [exact Hu|].
    cbn [snd with_sent with_self self set_participants current_meal_participants].
    apply Forall_app. split; [exact Hu | repeat constructor].
  - specialize (Hu ltac:(discriminate)). rewrite handle_update_bill.
    destruct (PyFloat.of_string (PyStr.strip t)) as [v|] eqn:Hp.
    + destruct (current_meal_participants (self w)) as [|kv d] eqn:Hd.
      * rewrite (process_bill_nobody t v w Hp Hd). intros _. cbn. now rewrite Hd.
      * assert (Hne : current_meal_participants (self w) <> [])
          by (rewrite Hd; discriminate).
        rewrite (process_bill_split t v w Hp Hne). intros H. now elim H.
    + rewrite (process_bill_invalid t w Hp). intros _. exact Hu.
  - specialize (Hu ltac:(discriminate)). rewrite handle_update_removal.
    destruct (PyDict.contains (PyStr.strip t) (current_meal_participants (self w)))
      eqn:E.
    + apply PyDictFacts.contains_In in E.
      destruct (PyDictFacts.delitem_hit _ _ E) as (l1 & v & l2 & Hd & _ & Hdel).
      rewrite (removal_hit t w _ Hdel). intros _.
      cbn [snd with_sent with_self self set_participants current_meal_participants].
      unfold unsplit in *. rewrite Hd in Hu. apply Forall_app in Hu.
      destruct Hu as [Hu1 Hu2]. inversion Hu2; subst.
      apply Forall_app. now split.
    + rewrite (removal_miss t w E). intros _. exact Hu.
  - specialize (Hu ltac:(discriminate)). unfold handle_update.
    cbn [check_update states first_match matches message_text].
    rewrite collect_purchaser_name_eq. intros _. exact Hu.
  - intros H. now elim H.
Qed.

Lemma handle_update_command_unsplit s name w :
  (s <> END -> unsplit (current_meal_participants (self w))) ->
  fst (handle_update s (Command name) w) <> END ->
  unsplit (current_meal_participants (self (snd (handle_update s (Command name) w)))).
Proof.
  intros Hu. unfold handle_update, check_update.
  destruct s; cbn [states entry_points fallbacks first_match matches];
    case_commands name;
    unfold remove_participant, list_participants, finish_participants, cancel,
      start, start_meal, bind, get_self;
    try (destruct (current_meal_participants (self w)) eqn:E);
    cbn; rewrite ?E; intros H;
    solve [ now elim H
          | constructor
          | apply Hu; discriminate
          | rewrite <- ?E; apply Hu; discriminate ].
Qed.

Lemma run_unsplit us :
  forall s w,
    (s <> END -> unsplit (current_meal_participants (self w))) ->
    fst (run us s w) <> END ->
    unsplit (current_meal_participants (self (snd (run us s w)))).
Proof.
  induction us as [|u us IH]; intros s w Hu; simpl; [exact Hu|].
  assert (H : fst (handle_update s u w) <> END ->
              unsplit (current_meal_participants (self (snd (handle_update s u w))))).
  { destruct u; [now apply handle_update_command_unsplit
                | now apply handle_update_text_unsplit]. }
  destruct (handle_update s u w) as [s' w']. now apply IH.
Qed.

(** X15. Shares stay 0 until the split.  While one user alone talks to
    the bot, starting with no conversation under way and whatever the
    bot object held, every participant in the map has the share 0 (the
    integer that [add_participant] stores) as long as the conversation
    is under way; shares are written by the bill handler only, which
    ends the conversation. *)
Theorem shares_are_zero_until_split (us : list Update) (w : Env) :
  let r := run us END w in
  fst r <> END ->
  forall name share,
    PyDict.getitem name (current_meal_participants (self (snd r))) = Some share ->
    share = Int 0.
Proof.
  intros r Hs name share Hg.
  assert (Hu : unsplit (current_meal_participants (self (snd r)))).
  { apply run_unsplit; [intros H; now elim H | exact Hs]. }
  clear Hs. unfold unsplit in Hu.
  induction (current_meal_participants (self (snd r))) as [|[k v] d IH];
    simpl in Hg; [discriminate|].
  inversion Hu; subst. destruct (String.eqb name k); [|now apply IH].
  simpl in *. congruence.
Qed.

Lemma shares_are_zero_until_split_witness :
  let w := {| self := Example.bot [("Old", Float (S754_infinity false))];
              service := {| worksheets := []; faults := [] |};
              clock := Example.today; sent := []; log := [] |} in
  let r := run [Command "start_meal"; Text "Sam"; Text "Ann"; Text "Ben";
                Command "done"; Text "ten"] END w in
  fst r <> END
  /\ PyDict.getitem "Ben" (current_meal_participants (self (snd r))) = Some (Int 0)
  /\ Int 0 = Int 0.
Proof.
  intros w r.
  assert (H : fst r <> END) by discriminate.
  exact (conj H (conj eq_refl
           (shares_are_zero_until_split _ w H "Ben" (Int 0) eq_refl))).
Defined.

(** ** Plain amounts *)

Lemma digit_facts (c : ascii) :
  PyStr.is_digit c = true ->
  Ascii.eqb c "_" = false
  /\ PyFloat.is_c_space c = false
  /\ forall s, PyFloat.sign_of (String c s) = (false, String c s).
Proof.
  destruct c as [[] [] [] [] [] [] [] []]; vm_compute; intros H;
    solve [discriminate H | repeat split].
Qed.

Lemma drop_underscores_digits (s : string) :
  forall prev,
    Ascii.eqb prev "_" = false -> all_digits s = true ->
    PyFloat.drop_underscores prev s = Some s.
Proof.
  induction s as [|c s IH]; intros prev Hp Hs; simpl.
  - now rewrite Hp.
  - simpl in Hs. apply andb_prop in Hs. destruct Hs as [Hc Hs].
    destruct (digit_facts c Hc) as (Hu & _ & _).
    rewrite Hu, Hp. simpl. now rewrite (IH c Hu Hs).
Qed.

Lemma c_rstrip_digits (s : string) :
  all_digits s = true -> PyFloat.c_rstrip s = s.
Proof.
  induction s as [|c s IH]; intros Hs; [reflexivity|].
  simpl in Hs. apply andb_prop in Hs. destruct Hs as [Hc Hs].
  destruct (digit_facts c Hc) as (_ & Hsp & _).
  simpl. rewrite (IH Hs). destruct s; [now rewrite Hsp | reflexivity].
Qed.

Lemma digits_of_digits (s : string) :
  forall acc n,
    all_digits s = true ->
    exists m,
      PyFloat.digits s acc n = (m, n + Z.of_nat (String.length s), EmptyString).
Proof.
  induction s as [|c s IH]; intros acc n Hs; cbn [PyFloat.digits String.length].
  - exists acc. now rewrite Z.add_0_r.
  - simpl in Hs. apply andb_prop in Hs. destruct Hs as [Hc Hs]. rewrite Hc.
    destruct (IH (10 * acc + PyFloat.digit_val c) (n + 1) Hs) as [m Hm].
    exists m. rewrite Hm. do 2 f_equal. lia.
Qed.

(** A non-empty text of digits is read as the integer it writes. *)
Lemma of_string_digits (s : string) :
  all_digits s = true -> s <> EmptyString ->
  exists m, PyFloat.of_string s = Some (PyFloat.of_decimal false m 0).
Proof.
  intros Hs Hne. destruct s as [|c s]; [congruence|].
  pose proof Hs as Hs'. simpl in Hs'. apply andb_prop in Hs'.
  destruct Hs' as [Hc _]. destruct (digit_facts c Hc) as (_ & Hsp & Hsign).
  destruct (digits_of_digits (String c s) 0 0 Hs) as [m Hm].
  exists m. unfold PyFloat.of_string.
  rewrite (drop_underscores_digits _ zero eq_refl Hs).
  replace (PyFloat.c_lstrip (String c s)) with (String c s)
    by (simpl; now rewrite Hsp).
  rewrite (c_rstrip_digits _ Hs).
  unfold PyFloat.parse_decimal. rewrite Hsign, Hm.
  replace (0 + Z.of_nat (String.length (String c s)) + 0 =? 0) with false
    by (symmetry; apply Z.eqb_neq; simpl String.length; lia).
  reflexivity.
Qed.

Lemma binary_round_aux_sign (s : bool) (m : positive) (e : Z) (l : location) :
  emin PyFloat.prec PyFloat.emax <= e ->
  match binary_round_aux PyFloat.prec PyFloat.emax s (Z.pos m) e l with
  | S754_finite s' _ _ | S754_infinity s' => s' = s
  | _ => False
  end.
Proof.
  intros He. unfold binary_round_aux.
  destruct (PyFloatFacts.shr_fexp_pos m e l He) as [H1 H2].
  destruct (shr_fexp PyFloat.prec PyFloat.emax (Z.pos m) e l) as [mrs' e'].
  simpl in H1, H2.
  pose proof (PyFloatFacts.round_nearest_even_lower
                (shr_m mrs') (loc_of_shr_record mrs')) as Hr.
  destruct (round_nearest_even (shr_m mrs') (loc_of_shr_record mrs'))
    as [|m1|m1]; try lia.
  destruct (PyFloatFacts.shr_fexp_pos m1 e' loc_Exact H2) as [H3 _].
  destruct (shr_fexp PyFloat.prec PyFloat.emax (Z.pos m1) e' loc_Exact)
    as [mrs'' e''].
  simpl in H3.
  destruct (shr_m mrs'') as [|m2|m2]; try lia.
  destruct (e'' <=? PyFloat.emax - PyFloat.prec); reflexivity.
Qed.

(** The float nearest to a non-negative integer is not negative. *)
Lemma of_decimal_integer_nonneg (m : Z) :
  PyFloat.is_nonneg (PyFloat.of_decimal false m 0) = true.
Proof.
  destruct m as [|p|p]; try reflexivity.
  unfold PyFloat.of_decimal. cbn [Z.leb Z.compare Z.pow Z.pow_pos Pos.iter Z.mul].
  unfold binary_normalize, binary_round, shl_align, fexp, emin.
  set (q := (p * 1)%positive).
  assert (H : forall mz ez,
             emin PyFloat.prec PyFloat.emax <= ez ->
             PyFloat.is_nonneg
               (binary_round_aux PyFloat.prec PyFloat.emax false (Z.pos mz) ez
                  loc_Exact) = true).
  { intros mz ez Hez. pose proof (binary_round_aux_sign false mz ez loc_Exact Hez) as Hs.
    destruct (binary_round_aux _ _ false (Z.pos mz) ez loc_Exact);
      try contradiction; subst; reflexivity. }
  unfold PyFloat.prec, PyFloat.emax in *.
  destruct (Z.max (Z.pos (digits2_pos q) + 0 - 53) (3 - 1024 - 53) - 0)
    as [|d|d] eqn:Ed; apply H; unfold emin; lia.
Qed.

(** X16. A plain amount is always accepted.  When the trimmed text is a
    non-empty run of decimal digits and there is somebody to share the
    bill, [float] takes it, the value is not negative (it is infinite
    when the number is too large for a float) and the split runs,
    ending the conversation.  A negative or not-a-number amount thus
    needs a sign or letters in the text. *)
Theorem plain_amount_is_accepted (w : Env) (update : string) :
  all_digits (PyStr.strip update) = true ->
  PyStr.strip update <> EmptyString ->
  current_meal_participants (self w) <> [] ->
  exists total_bill,
    PyFloat.of_string (PyStr.strip update) = Some total_bill
    /\ PyFloat.is_nonneg total_bill = true
    /\ fst (handle_update WAITING_FOR_BILL (Text update) w) = END.
Proof.
  intros Hd Hne Hp.
  destruct (of_string_digits _ Hd Hne) as [m Hm].
  exists (PyFloat.of_decimal false m 0).
  split; [exact Hm|]. split; [apply of_decimal_integer_nonneg|].
  exact (proj1 (bill_accepted update _ w Hm Hp)).
Qed.

Lemma plain_amount_is_accepted_witness :
  let w := Example.env Example.alice_bob [] in
  all_digits (PyStr.strip " 0042 ") = true
  /\ PyStr.strip " 0042 " <> EmptyString
  /\ current_meal_participants (self w) <> []
  /\ exists total_bill,
       PyFloat.of_string (PyStr.strip " 0042 ") = Some total_bill
       /\ PyFloat.is_nonneg total_bill = true
       /\ fst (handle_update WAITING_FOR_BILL (Text " 0042 ") w) = END.
Proof.
  intros w.
  assert (H2 : PyStr.strip " 0042 " <> EmptyString) by discriminate.
  assert (H3 : current_meal_participants (self w) <> []) by (simpl; discriminate).
  exact (conj eq_refl (conj H2 (conj H3
           (plain_amount_is_accepted w " 0042 " eq_refl H2 H3)))).
Defined.

(** ** Exceptions that leave a handler *)






(** ** Listing *)

(** X5. [/list] shows what was added.  In the collection state with an
    empty map, after texts that differ pairwise when trimmed and
    lowered, [/list] answers with the trimmed names in the order they
    were sent, one per line under the heading (or with the empty-list
    message when no text was sent); each text before it was confirmed as
    added, the map holds exactly these names and the state is still the
    collection state. *)
Theorem list_shows_what_was_added (w : Env) (names : list string) :
  current_meal_participants (self w) = [] ->
  NoDup (map (fun n => PyStr.lower (PyStr.strip n)) names) ->
  let r := run (map Text names ++ [Command "list"]) WAITING_FOR_PARTICIPANTS w in
  let people := map PyStr.strip names in
  fst r = WAITING_FOR_PARTICIPANTS
  /\ PyDict.keys (current_meal_participants (self (snd r))) = people
  /\ sent (snd r)
     = (sent w ++ map added people
        ++ [{| text :=
                 match people with
                 | [] => "No participants added yet."
                 | _ => "Current participants:" ++ nl ++ PyStr.join nl people
                 end;
               reply_markup := None |}])%list.
Proof.
  intros Hd Hnd r people. subst r.
  rewrite run_app, run_add_names;
    [|intros n _; rewrite Hd; reflexivity | exact Hnd].
  cbn [fst snd run].
  destruct (fold_add_one names w) as (F1 & _ & _ & _ & _ & _ & F7).
  set (w' := fold_left add_one names w) in *. rewrite Hd in F1. simpl in F1.
  assert (Hk : PyDict.keys (current_meal_participants (self w')) = people).
  { rewrite F1. unfold PyDict.keys. rewrite map_map. reflexivity. }
  assert (Hs : sent w' = (sent w ++ map added people)%list).
  { rewrite F7. subst people. now rewrite map_map. }
  destruct (handle_update_list w') as [He Hn].
  destruct names as [|n names].
  - rewrite (He F1). cbn [fst snd sent_reply with_sent sent self].
    rewrite Hs, F1, <- app_assoc. repeat split.
  - rewrite Hn by (rewrite F1; discriminate).
    cbn [fst snd sent_reply with_sent sent self].
    rewrite Hs, Hk, <- app_assoc. repeat split.
Qed.

Lemma list_shows_what_was_added_witness :
  let w := Example.env [] [] in
  let names := [" Ann"; "Ben "] in
  current_meal_participants (self w) = []
  /\ NoDup (map (fun n => PyStr.lower (PyStr.strip n)) names)
  /\ sent (snd (run (map Text names ++ [Command "list"])
                  WAITING_FOR_PARTICIPANTS w))
     = [added "Ann"; added "Ben";
        {| text := "Current participants:" ++ nl ++ "Ann" ++ nl ++ "Ben";
           reply_markup := None |}].
Proof.
  intros w names.
  assert (H : NoDup (map (fun n => PyStr.lower (PyStr.strip n)) names))
    by (simpl; repeat constructor; simpl; intuition discriminate).
  exact (conj eq_refl (conj H
           (proj2 (proj2 (list_shows_what_was_added w names eq_refl H))))).
Defined.
